(** * SmartAgent: the protocol-plugin service and the DELL EMC Unity plugin

    A shallow embedding of [python/protocol_plugin.py] and
    [python/DELL_EMC_Unity.py] (Python 2), with the properties that the
    specification states about them.

    Python values are embedded as a small algebraic type, Python
    exceptions as an error outcome, dictionaries that are only looked up
    as [gmap]s and dictionaries that are iterated as association lists,
    whose order stands for the order in which Python iterates.  Methods
    that send requests or change the session are functions of the session
    that return it with their outcome; what the process takes from outside
    (the replies of the array, the clock library, the environment) is a
    record of functions.  The [while] loop of the metric walk takes one
    unit of fuel per page.  Creating the state directory and decoding the
    state file are not part of the embedding, and the write of the state
    file is taken to succeed. *)

From Stdlib Require Import ZArith String Ascii List Bool Lia DecimalString.
From stdpp Require Import base option list gmap strings.

Set Warnings "-register-all".
Local Open Scope Z_scope.
Local Open Scope string_scope.
Local Open Scope list_scope.

(** ** Python values and exceptions *)

Module Py.

(** What [json.loads] produces, and what the plugin passes around.  Numbers
    are the integers; strings are sequences of one-byte characters. *)
Inductive json : Type :=
| JNull
| JBool (b : bool)
| JNum (n : Z)
| JStr (s : string)
| JList (l : list json)
| JDict (d : list (string * json)).

(** The exceptions that the embedded code raises, by Python class. *)
Inductive exn : Type :=
| Exception (msg : string)
| ProtocolError (msg : string)
| KeyError (key : string)
| TypeError (msg : string)
| ValueError (msg : string)
| AttributeError (msg : string)
| ZeroDivisionError (msg : string)
| IndexError (msg : string)
| LibraryError (cls msg : string).

(** The result of running embedded code: a value, a raised exception, an
    input on which the embedding does not say what Python does
    ([Unmodelled]), or a loop that used up its fuel. *)
Inductive outcome (A : Type) : Type :=
| Ret (a : A)
| Raise (e : exn)
| Unmodelled (what : string)
| OutOfFuel.
Arguments Ret {A} a.
Arguments Raise {A} e.
Arguments Unmodelled {A} what.
Arguments OutOfFuel {A}.

Definition bind {A B} (m : outcome A) (k : A -> outcome B) : outcome B :=
  match m with
  | Ret a => k a
  | Raise e => Raise e
  | Unmodelled w => Unmodelled w
  | OutOfFuel => OutOfFuel
  end.

Notation "'do' x <- m ; k" := (bind m (fun x => k))
  (at level 10, x name, m at level 100, k at level 200,
   format "'[v' 'do'  x  <-  m ; '/' k ']'").

Definition returns {A} (m : outcome A) : bool :=
  match m with Ret _ => true | _ => false end.

(** [bool(x)] *)
Definition truthy (x : json) : bool :=
  match x with
  | JNull => false
  | JBool b => b
  | JNum n => negb (Z.eqb n 0)
  | JStr s => negb (String.eqb s "")
  | JList l => match l with [] => false | _ => true end
  | JDict d => match d with [] => false | _ => true end
  end.

(** [type(x).__name__], as it appears in the messages of [TypeError]. *)
Definition type_name (x : json) : string :=
  match x with
  | JNull => "NoneType"
  | JBool _ => "bool"
  | JNum _ => "int"
  | JStr _ => "unicode"
  | JList _ => "list"
  | JDict _ => "dict"
  end.

(** Dictionary access on an association list: the first binding of a key
    is the one a dictionary holds. *)
Fixpoint dict_get {A} (k : string) (d : list (string * A)) : option A :=
  match d with
  | [] => None
  | (k', v) :: d' => if String.eqb k k' then Some v else dict_get k d'
  end.

(** [d[k] = v]: replaces the binding in place, or adds one at the end. *)
Fixpoint dict_set {A} (k : string) (v : A) (d : list (string * A))
  : list (string * A) :=
  match d with
  | [] => [(k, v)]
  | (k', v') :: d' =>
      if String.eqb k k' then (k, v) :: d' else (k', v') :: dict_set k v d'
  end.

Definition chars (s : string) : list string :=
  map (fun c => String c EmptyString) (list_ascii_of_string s).

(** [iter(x)], as [list += x] consumes it: the elements of a list, the
    keys of a dictionary, the characters of a string. *)
Definition py_iter (x : json) : outcome (list json) :=
  match x with
  | JList l => Ret l
  | JDict d => Ret (map (fun kv => JStr (fst kv)) d)
  | JStr s => Ret (map JStr (chars s))
  | _ => Raise (TypeError ("'" +:+ type_name x +:+ "' object is not iterable"))
  end.

(** [x[k]] for a string key [k]. *)
Definition getitem (x : json) (k : string) : outcome json :=
  match x with
  | JDict d =>
      match dict_get k d with
      | Some v => Ret v
      | None => Raise (KeyError k)
      end
  | JList _ => Raise (TypeError "list indices must be integers, not str")
  | JStr _ => Raise (TypeError "string indices must be integers, not str")
  | _ => Raise (TypeError
                  ("'" +:+ type_name x +:+ "' object has no attribute '__getitem__'"))
  end.

Fixpoint is_prefix (p s : string) : bool :=
  match p, s with
  | EmptyString, _ => true
  | String a p', String b s' => Ascii.eqb a b && is_prefix p' s'
  | String _ _, EmptyString => false
  end.

(** [p in s] for two strings *)
Fixpoint is_substring (p s : string) : bool :=
  is_prefix p s ||
  match s with
  | EmptyString => false
  | String _ s' => is_substring p s'
  end.

(** [x == k] for a string [k] *)
Definition eq_str (x : json) (k : string) : bool :=
  match x with
  | JStr s => String.eqb s k
  | _ => false
  end.

(** [k in x] for a string [k] *)
Definition contains (k : string) (x : json) : outcome bool :=
  match x with
  | JDict d => Ret (bool_decide (is_Some (dict_get k d)))
  | JList l =>
      Ret (existsb (fun y => match y with JStr s => String.eqb s k | _ => false end) l)
  | JStr s => Ret (is_substring k s)
  | _ => Raise (TypeError
                  ("argument of type '" +:+ type_name x +:+ "' is not iterable"))
  end.

(** ['%d' % n] *)
Definition fmt_d (n : Z) : string := NilZero.string_of_int (Z.to_int n).

(** [sep.join(l)] *)
Fixpoint join (sep : string) (l : list string) : string :=
  match l with
  | [] => ""
  | [x] => x
  | x :: l' => x +:+ sep +:+ join sep l'
  end.

(** [s.split(sep)] for a one-character separator *)
Fixpoint split (sep : ascii) (s : string) : list string :=
  match s with
  | EmptyString => [""]
  | String c s' =>
      if Ascii.eqb c sep then "" :: split sep s'
      else match split sep s' with
           | [] => [String c ""]
           | f :: fs => String c f :: fs
           end
  end.

(** [l[i]] *)
Definition index {A} (l : list A) (i : nat) : outcome A :=
  match nth_error l i with
  | Some x => Ret x
  | None => Raise (IndexError "list index out of range")
  end.

Fixpoint mapM {A B} (f : A -> outcome B) (l : list A) : outcome (list B) :=
  match l with
  | [] => Ret []
  | x :: l' =>
      do y <- f x;
      do ys <- mapM f l';
      Ret (y :: ys)
  end.

Definition is_digit (c : ascii) : bool :=
  let n := nat_of_ascii c in (48 <=? n)%nat && (n <=? 57)%nat.

Definition digit_value (c : ascii) : Z := Z.of_nat (nat_of_ascii c) - 48.

Fixpoint all_chars (p : ascii -> bool) (s : string) : bool :=
  match s with
  | EmptyString => true
  | String c s' => p c && all_chars p s'
  end.

Fixpoint digits_value (acc : Z) (s : string) : Z :=
  match s with
  | EmptyString => acc
  | String c s' => digits_value (10 * acc + digit_value c) s'
  end.

(** [int(s)], on a non-empty string of decimal digits. *)
Definition py_int (s : string) : outcome Z :=
  if negb (String.eqb s "") && all_chars is_digit s
  then Ret (digits_value 0 s)
  else Unmodelled "int() of a string that is not all digits".

(** [str(x)] for the leaves of a decoded JSON document; the [repr] of a
    list or dictionary is not modelled. *)
Definition py_str (x : json) : outcome string :=
  match x with
  | JNull => Ret "None"
  | JBool true => Ret "True"
  | JBool false => Ret "False"
  | JNum n => Ret (fmt_d n)
  | JStr s =>
      if all_chars (fun c => (nat_of_ascii c <? 128)%nat) s
      then Ret s
      else Unmodelled "str() of a unicode string outside ASCII"
  | _ => Unmodelled "str() of a list or dict"
  end.

(** ['%s' % x] *)
Definition fmt_s (x : json) : outcome string :=
  match x with
  | JStr s => Ret s
  | _ => py_str x
  end.

(** [a + v] for an integer [a] *)
Definition py_add (a : Z) (v : json) : outcome Z :=
  match v with
  | JNum n => Ret (a + n)
  | JBool b => Ret (a + Z.b2z b)
  | _ => Raise (TypeError ("unsupported operand type(s) for +: 'int' and '"
                           +:+ type_name v +:+ "'"))
  end.

(** [x.iteritems()] *)
Definition iteritems (x : json) : outcome (list (string * json)) :=
  match x with
  | JDict d => Ret d
  | _ => Raise (AttributeError
                  ("'" +:+ type_name x +:+ "' object has no attribute 'iteritems'"))
  end.

(** [sep.join(l)] for a list of values, which must all be strings *)
Fixpoint py_join_from (i : nat) (l : list json) : outcome (list string) :=
  match l with
  | [] => Ret []
  | JStr x :: l' => do xs <- py_join_from (S i) l'; Ret (x :: xs)
  | y :: _ =>
      Raise (TypeError ("sequence item " +:+ fmt_d (Z.of_nat i) +:+
                        ": expected string, " +:+ type_name y +:+ " found"))
  end.

Definition py_join (sep : string) (l : list json) : outcome string :=
  do xs <- py_join_from 0 l; Ret (join sep xs).

(** *** The fragment of [re] that the plugin uses

    A pattern is a sequence of character classes, each repeated between
    [lo] and [hi] times; [re_match] is [re.compile(p).match(s)], which
    anchors the pattern at the start of [s] only. *)
Inductive char_class : Type :=
| Digit                     (* \d *)
| AnyChar                   (* .   *)
| Lit (c : ascii).

Definition in_class (k : char_class) (c : ascii) : bool :=
  match k with
  | Digit => is_digit c
  | AnyChar => negb (Ascii.eqb c (ascii_of_nat 10))
  | Lit c' => Ascii.eqb c c'
  end.

Fixpoint re_repeat (k : char_class) (lo hi : nat) (cont : string -> bool)
    (s : string) : bool :=
  match hi with
  | O => match lo with O => cont s | S _ => false end
  | S hi' =>
      let one_more lo' :=
        match s with
        | String c s' => in_class k c && re_repeat k lo' hi' cont s'
        | EmptyString => false
        end in
      match lo with
      | O => one_more O || cont s
      | S lo' => one_more lo'
      end
  end.

Fixpoint re_match (p : list (char_class * nat * nat)) (s : string) : bool :=
  match p with
  | [] => true
  | (k, lo, hi) :: p' => re_repeat k lo hi (re_match p') s
  end.

End Py.

Export Py.

(** ** [class UnitySession]: walking the decoded JSON *)

Module UnitySession.

(** One pass of the inner loop of [follow_path] for the step ['*']:
    [new_branches += branch if branch else []] for each branch in turn. *)
Fixpoint expand (tree : list json) : outcome (list json) :=
  match tree with
  | [] => Ret []
  | branch :: rest =>
      do children <- (if truthy branch then py_iter branch else Ret []);
      do more <- expand rest;
      Ret (children ++ more)
  end.

(** [branch.get(step, None) if isinstance(branch, dict) else None] *)
Definition descend (step : string) (branch : json) : json :=
  match branch with
  | JDict d => default JNull (dict_get step d)
  | _ => JNull
  end.

(** The body of [for step in path]: the new value of [tree]. *)
Definition follow_step (tree : list json) (step : string)
  : outcome (list json) :=
  if String.eqb step "*" then expand tree else Ret (map (descend step) tree).

Fixpoint follow_steps (tree : list json) (path : list string)
  : outcome (list json) :=
  match path with
  | [] => Ret tree
  | step :: path' =>
      do tree' <- follow_step tree step;
      follow_steps tree' path'
  end.

Definition follow_path (dictionary : json) (path : list string)
  : outcome (list json) :=
  let tree := match dictionary with
              | JList l => l
              | _ => [dictionary]
              end in
  follow_steps tree path.

(** [r'\d{1,5}:\d{2}:\d{2}.\d{3}'] *)
Definition duration_pattern : list (char_class * nat * nat) :=
  [ (Digit, 1, 5); (Lit ":", 1, 1); (Digit, 2, 2); (Lit ":", 1, 1);
    (Digit, 2, 2); (AnyChar, 1, 1); (Digit, 3, 3) ]%nat.

(** [float(s)] on the seconds field, as a number of thousandths: the
    embedding covers a field of two digits, a point and three digits. *)
Definition py_float_millis (s : string) : outcome Z :=
  match list_ascii_of_string s with
  | [a; b; p; c; d; e] =>
      if is_digit a && is_digit b && Ascii.eqb p "." &&
         is_digit c && is_digit d && is_digit e
      then Ret (digits_value 0 (string_of_list_ascii [a; b; c; d; e]))
      else Unmodelled "float() of a field that is not SS.mmm"
  | _ => Unmodelled "float() of a field that is not SS.mmm"
  end.

Definition pad3 (n : Z) : string :=
  fmt_d (n / 100 mod 10) +:+ fmt_d (n / 10 mod 10) +:+ fmt_d (n mod 10).

(** ['%f' % seconds] for [seconds] given in thousandths: six decimals, of
    which the last three are zero. *)
Definition fmt_f_millis (ms : Z) : string :=
  fmt_d (ms / 1000) +:+ "." +:+ pad3 (ms mod 1000) +:+ "000".

(** [result += (', ' + unit if result else unit) % value] *)
Definition add_component (result : string) (text : string) : string :=
  result +:+ (if negb (String.eqb result "") then ", " +:+ text else text).

(** [int(fields[0])], [int(fields[1])] and [float(fields[2])] of
    [fields = branch[0].split(':')]: hours, minutes and seconds, the last
    in thousandths *)
Definition duration_fields (leaf : string) : outcome (Z * Z * Z) :=
  let fields := split ":" leaf in
  do f0 <- index fields 0;
  do h <- py_int f0;
  do f1 <- index fields 1;
  do minutes <- py_int f1;
  do f2 <- index fields 2;
  do seconds <- py_float_millis f2;
  Ret (h, minutes, seconds).

(** The string that the first branch of the conditional in [fill_in_row]
    builds in [result] *)
Definition duration_text (h minutes seconds : Z) : string :=
  let years := h / 24 / 365 in
  let days := (h / 24) mod 365 in
  let hours := h mod 24 in
  let result := "" in
  let result := if negb (Z.eqb years 0)
                then result +:+ (fmt_d years +:+ " years") else result in
  let result := if negb (Z.eqb days 0)
                then add_component result (fmt_d days +:+ " days") else result in
  let result := if negb (Z.eqb hours 0)
                then add_component result (fmt_d hours +:+ " hours") else result in
  let result := if negb (Z.eqb minutes 0)
                then add_component result (fmt_d minutes +:+ " minutes")
                else result in
  let result := if negb (Z.eqb seconds 0)
                then add_component result (fmt_f_millis seconds +:+ " seconds")
                else result in
  result.

Definition render_duration (leaf : string) : outcome string :=
  do f <- duration_fields leaf;
  let '(h, minutes, seconds) := f in
  Ret (duration_text h minutes seconds).

Definition newline : string := String (ascii_of_nat 10) "".

(** The value that [fill_in_row] stores for one parameter, from the
    branches that [follow_path] returned for it. *)
Definition cell_of_branch (branch : list json) : outcome json :=
  match branch with
  | [JStr s] =>
      if re_match duration_pattern s
      then do result <- render_duration s; Ret (JStr result)
      else Ret (JStr s)
  | [leaf] => Ret leaf
  | _ => do leaves <- mapM py_str branch; Ret (JStr (join newline leaves))
  end.

(** [fill_in_row], with the row under construction as an accumulator;
    [parameters] lists the items of the dictionary in iteration order. *)
Fixpoint fill_in_row_from (row : list (string * json))
    (parameters : list (string * string)) (tree : json)
  : outcome (list (string * json)) :=
  match parameters with
  | [] => Ret row
  | (parameter, datafield) :: rest =>
      do branch <- follow_path tree (split "." parameter);
      do cell <- cell_of_branch branch;
      fill_in_row_from (dict_set datafield cell row) rest tree
  end.

Definition fill_in_row (parameters : list (string * string)) (tree : json)
  : outcome (list (string * json)) :=
  fill_in_row_from [] parameters tree.

(** *** The session object and the world around it *)

(** [requests.Response], as far as the plugin reads it: [json_body] is
    what [response.json()] returns, when the text decodes. *)
Record http_response : Type := {
  status_code : Z;
  text : string;
  json_body : option json;
}.

(** One entry of the state kept per metric path:
    [{"timestamp": ..., "result": ...}].  The time stamp is a number of
    whole seconds ([time.mktime] of a time tuple) or [None]. *)
Record ts_entry : Type := {
  timestamp : option Z;
  result : list json;
}.

(** A request that [query_api] sent: method and URL. *)
Definition call : Type := string * string.

(** What the code takes from outside the process. *)
Record env : Type := {
  (** the reply to a request of [query_api], which may depend on the
      requests sent before it; an exception of the HTTP library is a
      [Raise] *)
  http : list call -> string -> string -> outcome http_response;
  (** the reply to the authenticated GET of [login] *)
  login_http : outcome http_response;
  (** [time.mktime(dateutil.parser.parse(x).timetuple())] *)
  parse_time : json -> outcome Z;
  (** [os.environ.get('OMD_ROOT', '')] *)
  omd_root : string;
  (** the module-level [args.username] *)
  args_username : outcome string;
}.

(** The attributes of a [UnitySession] that its methods read and write,
    and the requests sent so far. *)
Record session : Type := {
  base_url : string;
  timestamps_file : string;
  timestamps : gmap string ts_entry;
  calls : list call;
}.

Definition set_timestamps (t : gmap string ts_entry) (s : session) : session :=
  {| base_url := base_url s; timestamps_file := timestamps_file s;
     timestamps := t; calls := calls s |}.

Definition log_call (c : call) (s : session) : session :=
  {| base_url := base_url s; timestamps_file := timestamps_file s;
     timestamps := timestamps s; calls := calls s ++ [c] |}.

(** Methods of the session: an outcome and the session afterwards. *)
Definition M (A : Type) : Type := session -> outcome A * session.

Definition ret {A} (a : A) : M A := fun s => (Ret a, s).

Definition lift {A} (o : outcome A) : M A := fun s => (o, s).

Definition bindM {A B} (m : M A) (k : A -> M B) : M B :=
  fun s =>
    match m s with
    | (Ret a, s') => k a s'
    | (Raise e, s') => (Raise e, s')
    | (Unmodelled w, s') => (Unmodelled w, s')
    | (OutOfFuel, s') => (OutOfFuel, s')
    end.

Notation "'run' x <- m ; k" := (bindM m (fun x => k))
  (at level 10, x name, m at level 100, k at level 200,
   format "'[v' 'run'  x  <-  m ; '/' k ']'").

Section Methods.

Variable E : env.

(** The [errors] table of [query_api] *)
Definition errors : list (Z * string) := [(404, "HTTP Status 404 - Not Found")].

Definition api_error (r : http_response) : exn :=
  let detail :=
    match find (fun kv => Z.eqb (fst kv) (status_code r)) errors with
    | Some kv => snd kv
    | None => text r
    end in
  Exception ("API responded with " +:+ fmt_d (status_code r) +:+ ": " +:+ detail).

Definition query_api (url : string) (method : string) : M json :=
  fun s =>
    let full := base_url s +:+ "/" +:+ url in
    let s' := log_call (method, full) s in
    match http E (calls s) method full with
    | Ret response =>
        if negb (Z.eqb (status_code response) 200)
        then (Raise (api_error response), s')
        else match json_body response with
             | Some j => (Ret j, s')
             | None => (Raise (api_error response), s')
             end
    | Raise e => (Raise e, s')
    | Unmodelled w => (Unmodelled w, s')
    | OutOfFuel => (OutOfFuel, s')
    end.

Definition login : M http_response := lift (login_http E).

Definition logout : M unit :=
  run _ <- query_api "types/loginSessionInfo/action/logout" "post";
  ret tt.

(** *** [get_historic_metric_value] *)

(** The key of a running sum: [(sp, k)], with [k] possibly [None]. *)
Definition series_key : Type := string * option string.

Fixpoint series_get (key : series_key) (ts : list (series_key * Z)) : option Z :=
  match ts with
  | [] => None
  | (key', v) :: ts' =>
      if bool_decide (key = key') then Some v else series_get key ts'
  end.

Fixpoint series_set (key : series_key) (v : Z) (ts : list (series_key * Z))
  : list (series_key * Z) :=
  match ts with
  | [] => [(key, v)]
  | (key', v') :: ts' =>
      if bool_decide (key = key') then (key, v) :: ts'
      else (key', v') :: series_set key v ts'
  end.

(** [timeseries[key] = timeseries.setdefault(key, 0) + v] *)
Definition series_add (key : series_key) (v : json)
    (ts : list (series_key * Z)) : outcome (list (series_key * Z)) :=
  do sum <- py_add (default 0 (series_get key ts)) v;
  Ret (series_set key sum ts).

Fixpoint add_inner (sp : string) (items : list (string * json))
    (ts : list (series_key * Z)) : outcome (list (series_key * Z)) :=
  match items with
  | [] => Ret ts
  | (k, v) :: items' =>
      do ts' <- series_add (sp, Some k) v ts;
      add_inner sp items' ts'
  end.

(** [for sp, value in content['values'].iteritems(): ...] *)
Fixpoint add_values (items : list (string * json))
    (ts : list (series_key * Z)) : outcome (list (series_key * Z)) :=
  match items with
  | [] => Ret ts
  | (sp, value) :: items' =>
      do ts' <- match value with
                | JDict d => add_inner sp d ts
                | _ => series_add (sp, None) value ts
                end;
      add_values items' ts'
  end.

(** The local variables that the [while] loop updates. *)
Record walk : Type := {
  new_timestamp : option Z;
  done : bool;
  count : Z;
  timeseries : list (series_key * Z);
  cached : list json;
}.

Definition walk0 : walk :=
  {| new_timestamp := None; done := false; count := 0;
     timeseries := []; cached := [] |}.

(** [not new_timestamp] *)
Definition unset (t : option Z) : bool :=
  match t with
  | None => true
  | Some z => Z.eqb z 0
  end.

(** [ts > old_timestamp]; in Python 2 every number is greater than [None] *)
Definition newer (ts : Z) (old : option Z) : bool :=
  match old with
  | None => true
  | Some o => Z.ltb o ts
  end.

(** [new_timestamp == old_timestamp] *)
Definition same_time (new old : option Z) : bool :=
  match new, old with
  | Some a, Some b => Z.eqb a b
  | None, None => true
  | _, _ => false
  end.

(** [old_timestamp != 0] *)
Definition nonzero (old : option Z) : bool :=
  match old with
  | None => true
  | Some o => negb (Z.eqb o 0)
  end.

Section Walk.

(** [ts_entry] and [old_timestamp] of the call *)
Variable entry0 : option ts_entry.

Definition old_timestamp : option Z :=
  match entry0 with
  | None => Some 0
  | Some e => timestamp e
  end.

(** The test that guards the accumulation of an entry:
    [ts > old_timestamp and 'values' in content and
     (count <= 5 or old_timestamp != 0)] *)
Definition takes (ts : Z) (content : json) (cnt : Z) : outcome bool :=
  if newer ts old_timestamp
  then do has <- contains "values" content;
       Ret (has && (Z.leb cnt 5 || nonzero old_timestamp))
  else Ret false.

(** The body of [for entry in api_response['entries']]: the variables
    after it, and whether it left the loop by [break]. *)
Definition entry_step (entry : json) (w : walk) : outcome (bool * walk) :=
  do content <- getitem entry "content";
  do stamp <- getitem content "timestamp";
  do ts <- parse_time E stamp;
  let new := if unset (new_timestamp w) then Some ts else new_timestamp w in
  if same_time new old_timestamp &&
     match timeseries w with [] => true | _ => false end
  then
    match entry0 with
    | None => Raise (KeyError "result")
    | Some e =>
        Ret (true,
             {| new_timestamp := new; done := true; count := count w;
                timeseries := timeseries w; cached := result e |})
    end
  else
    do take <- takes ts content (count w);
    if (take : bool) then
      do values <- getitem content "values";
      do items <- iteritems values;
      do series <- add_values items (timeseries w);
      Ret (false,
           {| new_timestamp := new; done := done w; count := count w + 1;
              timeseries := series; cached := cached w |})
    else
      Ret (false,
           {| new_timestamp := new; done := true; count := count w;
              timeseries := timeseries w; cached := cached w |}).

Fixpoint for_entries (entries : list json) (w : walk) : outcome walk :=
  match entries with
  | [] => Ret w
  | entry :: rest =>
      do r <- entry_step entry w;
      if fst r then Ret (snd r) else for_entries rest (snd r)
  end.

End Walk.

Definition dquote : string := String (ascii_of_nat 34) EmptyString.

Definition metric_url (path : string) : string :=
  "types/metricValue/instances?filter=path EQ " +:+ dquote +:+ path +:+ dquote.

(** [for link in api_response['links']: ...]: whether a link with
    [rel == 'next'] was seen, and the response last fetched. *)
Fixpoint for_links (path : string) (links : list json)
    (new : bool) (api_response : json) : M (bool * json) :=
  match links with
  | [] => ret (new, api_response)
  | link :: rest =>
      run rel <- lift (getitem link "rel");
      if eq_str rel "next" then
        run href <- lift (getitem link "href");
        run suffix <- lift (fmt_s href);
        run next <- query_api (metric_url path +:+ suffix) "get";
        for_links path rest true next
      else for_links path rest new api_response
  end.

(** [while not done: ...], one page per unit of fuel *)
Fixpoint walk_pages (fuel : nat) (entry0 : option ts_entry) (path : string)
    (api_response : json) (w : walk) : M walk :=
  match fuel with
  | O => lift OutOfFuel
  | S fuel' =>
      run entries <- lift (do e <- getitem api_response "entries"; py_iter e);
      run w' <- lift (for_entries entry0 entries w);
      if done w' then ret w'
      else
        run links <- lift (do l <- getitem api_response "links"; py_iter l);
        run next <- for_links path links false api_response;
        if fst next then walk_pages fuel' entry0 path (snd next) w'
        else ret {| new_timestamp := new_timestamp w'; done := true;
                    count := count w'; timeseries := timeseries w';
                    cached := cached w' |}
  end.

(** One output row, for a running sum [v] under the key [(sp, k)] *)
Definition make_row (name : json) (parameters : list (string * string))
    (cnt : Z) (item : series_key * Z) : outcome json :=
  let '((sp, k), v) := item in
  let row := [] in
  let row := match dict_get "sp" parameters with
             | Some f => dict_set f (JStr sp) row
             | None => row
             end in
  let row := match dict_get "key" parameters, k with
             | Some f, Some k' => dict_set f (JStr k') row
             | _, _ => row
             end in
  do row <- match dict_get "value" parameters with
            | Some f =>
                if Z.eqb cnt 0
                then Raise (ZeroDivisionError
                              "integer division or modulo by zero")
                else Ret (dict_set f (JNum (v / cnt)) row)
            | None => Ret row
            end;
  let row := match dict_get "name" parameters with
             | Some f => dict_set f name row
             | None => row
             end in
  Ret (JDict row).

(** The rows returned once the loop has ended: [result] as the loop left
    it, or else one row per running sum. *)
Definition emit (name : json) (parameters : list (string * string))
    (w : walk) : outcome (list json) :=
  match cached w with
  | [] => mapM (make_row name parameters (count w)) (timeseries w)
  | _ => Ret (cached w)
  end.

(** The loop of [get_historic_metric_value], from the first request on *)
Definition collect (fuel : nat) (path : string) : M walk :=
  fun s =>
    (run api_response <- query_api (metric_url path) "get";
     walk_pages fuel (timestamps s !! path) path api_response walk0) s.

Definition get_historic_metric_value (fuel : nat) (path : string)
    (name : json) (parameters : list (string * string)) : M (list json) :=
  run w <- collect fuel path;
  run rows <- lift (emit name parameters w);
  fun s =>
    (Ret rows,
     set_timestamps
       (<[path := {| timestamp := new_timestamp w; result := rows |}]>
          (timestamps s)) s).

Definition get_real_time_metric_value (resource : string) (name : json)
    (parameters : list (string * string)) : M (list json) :=
  ret [].

(** *** [get_resource] and [get_pools] *)

(** [', '.join([message['en-US'] for message in
    api_response['error']['messages']])], returned instead of rows when the
    response has an ['error'] and no ['entries'] *)
Definition error_reply (api_response : json) : outcome (option json) :=
  do has_entries <- contains "entries" api_response;
  if (has_entries : bool) then Ret None
  else
    do has_error <- contains "error" api_response;
    if (has_error : bool) then
      do error <- getitem api_response "error";
      do messages <- getitem error "messages";
      do l <- py_iter messages;
      do texts <- mapM (fun message => getitem message "en-US") l;
      do joined <- py_join ", " texts;
      Ret (Some (JStr joined))
    else Ret None.

Definition rows_of (parameters : list (string * string)) (branches : list json)
  : outcome (list json) :=
  mapM (fun branch => do row <- fill_in_row parameters branch; Ret (JDict row))
       branches.

(** The body of [for entry in api_response['entries']] in [get_resource] *)
Definition resource_entry (path : list string)
    (parameters : list (string * string)) (entry : json)
  : outcome (list json) :=
  do content <- getitem entry "content";
  match path with
  | _ :: ((_ :: _) as steps) =>
      do tree <- follow_path content steps;
      rows_of parameters tree
  | _ =>
      match content with
      | JDict _ => rows_of parameters [content]
      | _ => do branches <- py_iter content; rows_of parameters branches
      end
  end.

Fixpoint concat_mapM {A B} (f : A -> outcome (list B)) (l : list A)
  : outcome (list B) :=
  match l with
  | [] => Ret []
  | x :: l' =>
      do ys <- f x;
      do more <- concat_mapM f l';
      Ret (ys ++ more)
  end.

(** A decoded response is never a [str], so the test
    [isinstance(api_response, str)] of the source is false. *)
Definition get_resource (resource : string) (name : json)
    (parameters : list (string * string)) : M json :=
  let path := split "." resource in
  let parameters_to_request :=
    match path with
    | [_] => map (fun p => hd "" (split "." (fst p))) parameters
    | _ => [nth 1 path ""]
    end in
  run api_response <-
    query_api ("types/" +:+ hd "" path +:+ "/instances?fields=" +:+
               join "," parameters_to_request) "get";
  run early <- lift (error_reply api_response);
  match early with
  | Some message => ret message
  | None =>
      run entries <- lift (do e <- getitem api_response "entries"; py_iter e);
      run rows <- lift (concat_mapM (resource_entry path parameters) entries);
      ret (JList rows)
  end.

(** The row that [get_pools] builds for one branch *)
Fixpoint pool_row_from (row : list (string * json)) (name : json)
    (parameters : list (string * string)) (branch : json)
  : outcome (list (string * json)) :=
  match parameters with
  | [] => Ret row
  | (parameter, datatableid) :: rest =>
      do leaf <- follow_path branch (split "." parameter);
      do cell <- (if String.eqb parameter "name" then Ret name
                  else match leaf with
                       | [x] => Ret x
                       | _ => do veins <- mapM py_str leaf;
                              Ret (JStr (join newline veins))
                       end);
      pool_row_from (dict_set datatableid cell row) name rest branch
  end.

(** The body of [for entry in api_response['entries']] in [get_pools] *)
Definition pool_entry (path : list string)
    (parameters : list (string * string)) (entry : json)
  : outcome (list json) :=
  do tree <- getitem entry "content";
  do name <- getitem tree "name";
  do branches <- match path with
                 | _ :: _ :: _ => follow_path tree path
                 | _ => Ret [tree]
                 end;
  mapM (fun branch =>
          do row <- pool_row_from [] name parameters branch; Ret (JDict row))
       branches.

Definition get_pools (resource : string) (name : json)
    (parameters : list (string * string)) : M json :=
  let path := split "." resource in
  run api_response <-
    query_api ("types/pool/instances?fields=name," +:+ hd "" path) "get";
  run early <- lift (error_reply api_response);
  match early with
  | Some message => ret message
  | None =>
      run entries <- lift (do e <- getitem api_response "entries"; py_iter e);
      run rows <- lift (concat_mapM (pool_entry path parameters) entries);
      ret (JList rows)
  end.

(** *** [get_table] *)

(** The module-level table [metrics]: metric path to display name *)
Definition metrics : list (string * string) :=
  [
    ("sp.*.storage.lun.*.readsRate", "Read");
    ("sp.*.blockCache.global.summary.writeMissesRate", "Block Cache Write Misses");
    ("sp.*.iscsi.fePort.*.readsRate", "Read");
    ("sp.*.storage.filesystem.*.writeBytesRate", "Internal Write");
    ("sp.*.storage.filesystem.*.clientReadsRate", "Client Read");
    ("sp.*.physical.disk.*.serviceTime", "Average Service Time");
    ("sp.*.physical.disk.*.writesRate", "Writes");
    ("sp.*.net.basic.outBytesRate", "Network Out");
    ("sp.*.physical.disk.*.readsRate", "Reads");
    ("sp.*.storage.lun.*.avgReadSize", "Average Read");
    ("sp.*.blockCache.global.summary.dirtyBytes", "Block Cache Dirty Data");
    ("sp.*.storage.filesystem.*.clientReadTimeAvg", "Avg Client Read Time");
    ("sp.*.nfs.basic.readResponseTime", "NFS Avg Read");
    ("sp.*.storage.lun.*.avgWriteSize", "Average Write");
    ("sp.*.iscsi.fePort.*.writeBytesRate", "Written");
    ("sp.*.nfs.totalCallsRate", "Total NFS");
    ("sp.*.storage.filesystem.*.readBytesRate", "Internal Read");
    ("sp.*.storage.lun.*.queueLength", "Average Queue Length");
    ("sp.*.net.device.*.bytesInRate", "Network In");
    ("sp.*.physical.disk.*.averageQueueLength", "Avg Queue Length");
    ("sp.*.storage.filesystem.*.clientWritesRate", "Client Write");
    ("sp.*.physical.disk.*.totalCallsRate", "Total Calls");
    ("sp.*.blockCache.global.summary.readHitsRate", "Block Cache Read Hits");
    ("sp.*.storage.filesystem.*.clientWriteTimeAvg", "Avg Client Write Time");
    ("sp.*.nfs.basic.readBytesRate", "NFS Read");
    ("sp.*.nfs.basic.totalIoTimeRate", "NFS Total I/O");
    ("sp.*.nfs.basic.writeIoTimeRate", "NFS Write IO");
    ("sp.*.storage.filesystem.*.readSizeAvg", "Avg Internal Read Size");
    ("sp.*.storage.filesystem.*.clientWriteSizeAvg", "Avg Client Write Size");
    ("sp.*.nfs.basic.readIoTimeRate", "NFS Read IO");
    ("sp.*.storage.filesystem.*.writeSizeAvg", "Avg Internal Write Size");
    ("sp.*.nfs.basic.writeBytesRate", "NFS Write");
    ("sp.*.storage.filesystem.*.clientWriteBytesRate", "Client Write");
    ("sp.*.physical.disk.*.readBytesRate", "Read");
    ("sp.*.physical.disk.*.responseTime", "Average Response Time");
    ("sp.*.storage.lun.*.responseTime", "Response Time");
    ("sp.*.storage.filesystem.*.writesRate", "Internal Write");
    ("sp.*.storage.filesystem.*.readsRate", "Internal Read");
    ("sp.*.blockCache.global.summary.writeHitsRate", "Block Cache Write Hits");
    ("sp.*.storage.lun.*.readBytesRate", "Read");
    ("sp.*.nfs.basic.readAvgSize", "NFS Avg Read Size");
    ("sp.*.net.device.*.pktsInRate", "Network In");
    ("sp.*.nfs.basic.writeAvgSize", "NFS Avg Write Size");
    ("sp.*.iscsi.fePort.*.writesRate", "Write");
    ("sp.*.storage.lun.*.totalCallsRate", "Total Call");
    ("sp.*.storage.filesystem.*.clientReadSizeAvg", "Avg Client Read Size");
    ("sp.*.nfs.basic.writesRate", "NFS Write");
    ("sp.*.nfs.basic.readsRate", "NFS Read");
    ("sp.*.storage.lun.*.writesRate", "Write");
    ("sp.*.storage.lun.*.writeBytesRate", "Written");
    ("sp.*.nfs.basic.responseTime", "NFS Avg IO");
    ("sp.*.storage.filesystem.*.clientReadBytesRate", "Client Read");
    ("sp.*.net.basic.inBytesRate", "Network In");
    ("sp.*.blockCache.global.summary.readMissesRate", "Block Cache Read Misses");
    ("sp.*.cpu.summary.utilization", "summary CPU Util");
    ("sp.*.net.device.*.pktsOutRate", "Network Out");
    ("sp.*.iscsi.fePort.*.readBytesRate", "Read");
    ("sp.*.physical.disk.*.writeBytesRate", "Written");
    ("sp.*.nfs.basic.writeResponseTime", "NFS Avg Write");
    ("sp.*.nfs.basic.totalIoCallsRate", "NFS Total I/O");
    ("sp.*.net.device.*.bytesOutRate", "Network Out")
  ].

(** [{field: {"Ok": val} for field, val in row.iteritems()}] *)
Definition wrap_row (row : json) : outcome json :=
  do items <- iteritems row;
  Ret (JDict (map (fun fv => (fst fv, JDict [("Ok", snd fv)])) items)).

(** [getattr(self, command_name)(command_line, name, parameters)], for the
    four methods of the session that are commands *)
Definition command (fuel : nat) (command_name command_line : string)
    (name : json) (parameters : list (string * string)) : M json :=
  if String.eqb command_name "get_historic_metric_value" then
    run rows <- get_historic_metric_value fuel command_line name parameters;
    ret (JList rows)
  else if String.eqb command_name "get_real_time_metric_value" then
    run rows <- get_real_time_metric_value command_line name parameters;
    ret (JList rows)
  else if String.eqb command_name "get_resource" then
    get_resource command_line name parameters
  else if String.eqb command_name "get_pools" then
    get_pools command_line name parameters
  else lift (Unmodelled "getattr(self, command_name) for another attribute").

Definition get_table (fuel : nat) (command_name command_line : string)
    (parameters : list (string * string)) : M json :=
  let name := match dict_get command_line metrics with
              | Some n => JStr n
              | None => JNull
              end in
  run output <- command fuel command_name command_line name parameters;
  run value <- lift (do rows <- py_iter output; mapM wrap_row rows);
  ret (JDict [("warnings", JList []); ("value", JList value)]).

End Methods.

End UnitySession.

(** ** [class UnityConfig], [class UnityProtocol] and [try_run] *)

Module UnityProtocol.

Import UnitySession.

Record UnityConfig : Type := {
  hostname : json;
  username : json;
  password : json;
}.

(** What outlives a session: the state files, by file name, and the
    requests that [query_api] has sent. *)
Record world : Type := {
  disk : gmap string (gmap string ts_entry);
  requests : list call;
}.

Definition protocol : json := JStr "DELL EMC Unity".
Definition version : json := JStr "0.1.0".

(** [inputs[0]] *)
Definition load_inputs (inputs : json) : outcome json :=
  match inputs with
  | JList (x :: _) => Ret x
  | JList [] => Raise (IndexError "list index out of range")
  | JStr (String c _) => Ret (JStr (String c EmptyString))
  | JStr EmptyString => Raise (IndexError "string index out of range")
  | JDict _ => Raise (KeyError "0")
  | _ => Raise (TypeError ("'" +:+ type_name inputs +:+
                           "' object has no attribute '__getitem__'"))
  end.

(** [UnityConfig(config)] *)
Definition load_config (config : json) : outcome UnityConfig :=
  do h <- getitem config "hostname";
  do c <- getitem config "config";
  do u <- getitem c "username";
  do c' <- getitem config "config";
  do p <- getitem c' "password";
  Ret {| hostname := h; username := u; password := p |}.

Definition show_queries (qry : json) : outcome json := Ret (JStr "queries: ...").

(** [try_run(fun)]: the handler of the source is commented out, which
    leaves [return { "Ok": fun() }]. *)
Definition try_run (fun_ : M json) : M json :=
  run v <- fun_;
  ret (JDict [("Ok", v)]).

(** [str(e)] *)
Definition str_of_exn (e : exn) : string :=
  match e with
  | Exception m | ProtocolError m | TypeError m | ValueError m
  | AttributeError m | ZeroDivisionError m | IndexError m
  | LibraryError _ m => m
  | KeyError k => "'" +:+ k +:+ "'"
  end.

Section Protocol.

Variable E : env.

(** [UnitySession(config)]: the URL, the name of the state file and the
    state read from it, if the file exists. *)
Definition new_session (config : UnityConfig) (w : world) : outcome session :=
  do host <- fmt_s (hostname config);
  let timestamps_dir := omd_root E +:+ "/var/lib/mnow/state/" +:+ host in
  let file := timestamps_dir +:+ "/unity_timestamps.json" in
  Ret {| base_url := "https://" +:+ host +:+ "/api";
         timestamps_file := file;
         timestamps := default ∅ (disk w !! file);
         calls := requests w |}.

(** The [try] block around [session.login()], with its handler: an
    exception raised inside it is raised again as a [ProtocolError]. *)
Definition checked_login : M unit :=
  fun s =>
    let attempt :=
      do response <- fst (login E s);
      if Z.eqb (status_code response) 404
      then Raise (ProtocolError "HTTP Status 404 - Not Found")
      else if is_substring "You are not authorized to view this page."
                (text response)
      then do user <- args_username E;
           Raise (ProtocolError
                    ("You are not authorized to view this page with user: "
                     +:+ user))
      else Ret tt in
    match attempt with
    | Raise e => (Raise (ProtocolError (str_of_exn e)), s)
    | o => (o, s)
    end.

(** The dictionary [{ParameterName: field for field in fields}] *)
Fixpoint parameters_of (inputs : json) (fields : list json)
    (acc : list (string * string)) : outcome (list (string * string)) :=
  match fields with
  | [] => Ret acc
  | field :: rest =>
      do fname <- fmt_s field;
      do data_fields <- getitem inputs "DataFields";
      do entry <- getitem data_fields ("API_" +:+ fname);
      do parameter <- getitem entry "ParameterName";
      match parameter, field with
      | JStr p, JStr f => parameters_of inputs rest (dict_set p f acc)
      | _, _ => Unmodelled "a parameter or field name that is not a string"
      end
  end.

(** The function that [run_queries] hands to [try_run] for one table *)
Definition table_query (fuel : nat) (inputs : json) (table : string)
    (fields : json) : M json :=
  run command_name <-
    lift (do tables <- getitem inputs "DataTables";
          do t <- getitem tables ("API_" +:+ table);
          getitem t "CommandName");
  run command_line <-
    lift (do tables <- getitem inputs "DataTables";
          do t <- getitem tables ("API_" +:+ table);
          getitem t "CommandLine");
  run parameters <- lift (do l <- py_iter fields; parameters_of inputs l []);
  match command_name, command_line with
  | JStr cn, JStr cl => get_table E fuel cn cl parameters
  | JStr _, _ => lift (Unmodelled "a command line that is not a string")
  | _, _ => lift (Raise (TypeError "getattr(): attribute name must be string"))
  end.

(** [{ table: try_run(...) for table, fields in qry.iteritems() }] *)
Fixpoint run_tables (fuel : nat) (inputs : json)
    (items : list (string * json)) (res : list (string * json))
  : M (list (string * json)) :=
  match items with
  | [] => ret res
  | (table, fields) :: rest =>
      run r <- try_run (table_query fuel inputs table fields);
      run_tables fuel inputs rest (dict_set table r res)
  end.

(** The body of [run_queries] after the session has been made *)
Definition run_session (fuel : nat) (qry inputs : json) : M json :=
  run _ <- checked_login;
  run items <- lift (iteritems qry);
  run res <- run_tables fuel inputs items [];
  run _ <- logout E;
  ret (JDict res).

(** [run_queries]: [session.save_state()] is reached, and the state file
    written, when nothing before it has raised. *)
Definition run_queries (fuel : nat) (qry inputs : json) (config : UnityConfig)
    (w : world) : outcome json * world :=
  match new_session config w with
  | Ret s =>
      match run_session fuel qry inputs s with
      | (Ret res, s') =>
          (Ret res,
           {| disk := <[timestamps_file s' := timestamps s']> (disk w);
              requests := calls s' |})
      | (o, s') => (o, {| disk := disk w; requests := calls s' |})
      end
  | Raise e => (Raise e, w)
  | Unmodelled what => (Unmodelled what, w)
  | OutOfFuel => (OutOfFuel, w)
  end.

End Protocol.

End UnityProtocol.

(** ** [protocol_plugin.py]: the service in front of a plugin *)

Module ProtocolService.

(** A plugin object: its class name and the attributes that the service
    reads from it, each of which a plugin class may lack.  [IH] and [CH]
    are the types of the plugin's loaded inputs and configuration, [W] the
    state that its [run_queries] acts on. *)
Record ProtocolPlugin (IH CH W : Type) : Type := {
  class_name : string;
  p_protocol : option json;
  p_version : option json;
  p_load_inputs : option (json -> outcome IH);
  p_load_config : option (json -> outcome CH);
  p_show_queries : option (json -> outcome json);
  p_run_queries : option (json -> IH -> CH -> W -> outcome json * W);
}.
Arguments class_name {IH CH W} _.
Arguments p_protocol {IH CH W} _.
Arguments p_version {IH CH W} _.
Arguments p_load_inputs {IH CH W} _.
Arguments p_load_config {IH CH W} _.
Arguments p_show_queries {IH CH W} _.
Arguments p_run_queries {IH CH W} _.

(** [class ProtocolSession] *)
Record ProtocolSession (IH CH : Type) : Type := {
  inputs : gmap string IH;
  configs : gmap string CH;
}.
Arguments inputs {IH CH} _.
Arguments configs {IH CH} _.

Section Service.

Context {IH CH W : Type}.
Variable plugin : ProtocolPlugin IH CH W.

(** What a method of the service gives back: the outcome, the session
    object and the plugin's state afterwards. *)
Definition reply : Type := outcome json * ProtocolSession IH CH * W.

Definition fail (e : exn) (session : ProtocolSession IH CH) (w : W) : reply :=
  (Raise e, session, w).

Definition no_attribute (name : string) : exn :=
  AttributeError ("'" +:+ class_name plugin +:+ "' object has no attribute '"
                  +:+ name +:+ "'").

(** [d[ref]] for a dictionary whose keys are the references handed out,
    which are strings *)
Definition lookup_ref {A} (d : gmap string A) (ref : json) : outcome A :=
  match ref with
  | JStr r =>
      match d !! r with
      | Some a => Ret a
      | None => Raise (KeyError r)
      end
  | JList _ | JDict _ =>
      Raise (TypeError ("unhashable type: '" +:+ type_name ref +:+ "'"))
  | _ => do r <- py_str ref; Raise (KeyError r)
  end.

Definition protocol (session : ProtocolSession IH CH) (w : W) : reply :=
  match p_protocol plugin with
  | Some v => (Ret v, session, w)
  | None => fail (no_attribute "protocol") session w
  end.

Definition version (session : ProtocolSession IH CH) (w : W) : reply :=
  match p_version plugin with
  | Some v => (Ret v, session, w)
  | None => fail (no_attribute "version") session w
  end.

(** [ref] is the value of [str(uuid.uuid4())] in this call. *)
Definition load_inputs (ref : string) (session : ProtocolSession IH CH)
    (raw : json) (w : W) : reply :=
  match p_load_inputs plugin with
  | None => fail (no_attribute "load_inputs") session w
  | Some f =>
      match f raw with
      | Ret h =>
          (Ret (JStr ref),
           {| inputs := <[ref := h]> (inputs session);
              configs := configs session |}, w)
      | Raise e => fail e session w
      | Unmodelled what => (Unmodelled what, session, w)
      | OutOfFuel => (OutOfFuel, session, w)
      end
  end.

Definition load_config (ref : string) (session : ProtocolSession IH CH)
    (raw : json) (w : W) : reply :=
  match p_load_config plugin with
  | None => fail (no_attribute "load_config") session w
  | Some f =>
      match f raw with
      | Ret h =>
          (Ret (JStr ref),
           {| inputs := inputs session;
              configs := <[ref := h]> (configs session) |}, w)
      | Raise e => fail e session w
      | Unmodelled what => (Unmodelled what, session, w)
      | OutOfFuel => (OutOfFuel, session, w)
      end
  end.

Definition run_queries (session : ProtocolSession IH CH)
    (qry input_ref config_ref : json) (w : W) : reply :=
  match p_run_queries plugin with
  | None => fail (no_attribute "run_queries") session w
  | Some f =>
      match (do ih <- lookup_ref (inputs session) input_ref;
             do ch <- lookup_ref (configs session) config_ref;
             Ret (ih, ch)) with
      | Ret (ih, ch) => let '(o, w') := f qry ih ch w in (o, session, w')
      | Raise e => fail e session w
      | Unmodelled what => (Unmodelled what, session, w)
      | OutOfFuel => (OutOfFuel, session, w)
      end
  end.

(** The arguments that [request] takes out of [req] for an operation:
    [req[name][k]] for each [k] in turn *)
Definition arguments (req : json) (name : string) (keys : list string)
  : outcome (list json) :=
  mapM (fun k => do a <- getitem req name; getitem a k) keys.

(** One [if name in req] block of [request], for an operation that
    [ProtocolService] has a method for: the arguments it reads from the
    request and the call it makes. *)
Definition handler : Type :=
  string -> ProtocolSession IH CH -> json -> W -> reply.

Definition with_arguments (name : string) (keys : list string)
    (call_ : list json -> string -> ProtocolSession IH CH -> W -> reply)
  : handler :=
  fun ref session req w =>
    match arguments req name keys with
    | Ret args => call_ args ref session w
    | Raise e => fail e session w
    | Unmodelled what => (Unmodelled what, session, w)
    | OutOfFuel => (OutOfFuel, session, w)
    end.

Definition not_implemented (name : string) : exn :=
  Exception ("Request not implemented: " +:+ name).

(** The operations that [request] tests for with [in], in the order of
    the source, each with the method of [ProtocolService] that it calls:
    [None] where [getattr(self, name, None)] is not callable, the class
    having no such method. *)
Definition operations : list (string * option handler) :=
  [ ("load_inputs",
     Some (with_arguments "load_inputs" ["input"]
             (fun args ref session w =>
                load_inputs ref session (nth 0 args JNull) w)));
    ("unload_inputs", None);
    ("load_config",
     Some (with_arguments "load_config" ["config"]
             (fun args ref session w =>
                load_config ref session (nth 0 args JNull) w)));
    ("unload_config", None);
    ("show_queries",
     Some (with_arguments "show_queries" ["query"; "input"; "config"]
             (fun args ref session w =>
                fail (TypeError
                        "show_queries() takes exactly 3 arguments (5 given)")
                     session w)));
    ("run_queries",
     Some (with_arguments "run_queries" ["query"; "input"; "config"]
             (fun args ref session w =>
                run_queries session (nth 0 args JNull) (nth 1 args JNull)
                            (nth 2 args JNull) w)));
    ("get_tables", None);
    ("get_fields", None) ].

(** [raise Exception('Request not implemented: ' + req)] *)
Definition unmatched (req : json) : exn :=
  match req with
  | JStr s => not_implemented s
  | _ => TypeError ("cannot concatenate 'str' and '" +:+ type_name req
                    +:+ "' objects")
  end.

Fixpoint dispatch (ops : list (string * option handler)) (ref : string)
    (session : ProtocolSession IH CH) (req : json) (w : W) : reply :=
  match ops with
  | [] => fail (unmatched req) session w
  | (name, method) :: rest =>
      match contains name req with
      | Ret true =>
          match method with
          | Some h => h ref session req w
          | None => fail (not_implemented name) session w
          end
      | Ret false => dispatch rest ref session req w
      | Raise e => fail e session w
      | Unmodelled what => (Unmodelled what, session, w)
      | OutOfFuel => (OutOfFuel, session, w)
      end
  end.

(** [ProtocolService.request]; [ref] is the identifier that [uuid.uuid4()]
    yields, should the request draw one. *)
Definition request (ref : string) (session : ProtocolSession IH CH)
    (req : json) (w : W) : reply :=
  if eq_str req "protocol" then protocol session w
  else if eq_str req "version" then version session w
  else dispatch operations ref session req w.

End Service.

(** [ProtocolService.session]: a new [ProtocolSession] *)
Definition new_session {IH CH} : ProtocolSession IH CH :=
  {| inputs := ∅; configs := ∅ |}.

End ProtocolService.

(** ** [test_protocol.py] *)

Module TestProtocol.

Import ProtocolService.

(** [{'test_%s' % field: {"Ok": {"unicodestring": "test"}} for field in fields}] *)
Fixpoint test_row (fields : list json) (row : list (string * json))
  : outcome (list (string * json)) :=
  match fields with
  | [] => Ret row
  | field :: rest =>
      do name <- fmt_s field;
      test_row rest
        (dict_set ("test_" +:+ name)
                  (JDict [("Ok", JDict [("unicodestring", JStr "test")])]) row)
  end.

Fixpoint test_tables (items : list (string * json)) (res : list (string * json))
  : outcome (list (string * json)) :=
  match items with
  | [] => Ret res
  | (table, fields) :: rest =>
      do l <- py_iter fields;
      do row <- test_row l [];
      test_tables rest
        (dict_set ("test_" +:+ table)
           (JDict [("Ok", JDict [("value", JList [JDict row]);
                                 ("warnings", JList [])])]) res)
  end.

Definition run_queries (qry inputs config : json) : outcome json :=
  do items <- iteritems qry;
  do res <- test_tables items [];
  Ret (JDict res).

Definition plugin : ProtocolPlugin json json unit :=
  {| class_name := "TestProtocol";
     p_protocol := Some (JStr "test");
     p_version := Some (JStr "0.1.0");
     p_load_inputs := Some (fun inputs => Ret inputs);
     p_load_config := Some (fun config => Ret config);
     p_show_queries := Some (fun qry => Ret (JStr "queries: ..."));
     p_run_queries := Some (fun qry i c w => (run_queries qry i c, w)) |}.

End TestProtocol.

(** ** Notions used by the statements *)

Import UnitySession.

(** The parts of a rendered duration in the order of the source, each
    present when its value is not zero. *)
Definition components (h minutes seconds : Z) : list string :=
  flat_map (fun p : Z * string => if Z.eqb (fst p) 0 then [] else [snd p])
    [ (h / 24 / 365, fmt_d (h / 24 / 365) +:+ " years");
      ((h / 24) mod 365, fmt_d ((h / 24) mod 365) +:+ " days");
      (h mod 24, fmt_d (h mod 24) +:+ " hours");
      (minutes, fmt_d minutes +:+ " minutes");
      (seconds, fmt_f_millis seconds +:+ " seconds") ].

(** The conditional appends of the source, over a list of parts *)
Fixpoint append_parts (parts : list (Z * string)) (result : string) : string :=
  match parts with
  | [] => result
  | (n, text) :: rest =>
      append_parts rest
        (if negb (Z.eqb n 0) then add_component result text else result)
  end.

(** The time stamp of the entry that the upstream lists first for
    [path], were it asked from the state [s] *)
Definition newest_listed (E : env) (s : session) (path : string) : outcome Z :=
  do api_response <- fst (query_api E (metric_url path) "get" s);
  do e <- getitem api_response "entries";
  do entries <- py_iter e;
  do first <- index entries 0;
  do content <- getitem first "content";
  do stamp <- getitem content "timestamp";
  parse_time E stamp.

(** The time stamp in the state entry of [path], if there is an entry *)
Definition stored_timestamp (s : session) (path : string) : option (option Z) :=
  timestamp <$> (timestamps s !! path).



(** *** Data for the examples

    A clock for time stamps of the first hour of 1970 on a machine whose
    time zone is UTC, and responses with one series [spa]. *)

Definition two_digits (n : Z) : string :=
  fmt_d (n / 10 mod 10) +:+ fmt_d (n mod 10).

Definition iso (t : Z) : string :=
  "1970-01-01T00:" +:+ two_digits (t / 60) +:+ ":" +:+ two_digits (t mod 60)
  +:+ ".000Z".

Definition first_hour : list (char_class * nat * nat) :=
  map (fun c => (Lit c, 1%nat, 1%nat)) (list_ascii_of_string "1970-01-01T00:")
  ++ [ (Digit, 2, 2); (Lit ":", 1, 1); (Digit, 2, 2) ]%nat.

Definition utc_clock (x : json) : outcome Z :=
  match x with
  | JStr s =>
      if re_match first_hour s
      then Ret (digits_value 0 (substring 14 2 s) * 60 +
                digits_value 0 (substring 17 2 s))
      else Unmodelled "a time outside the first hour of 1970"
  | _ => Unmodelled "a time stamp that is not a string"
  end.

Definition sample (t v : Z) : json :=
  JDict [("content", JDict [("timestamp", JStr (iso t));
                            ("values", JDict [("spa", JNum v)])])].

Definition page (entries links : list json) : json :=
  JDict [("entries", JList entries); ("links", JList links)].

Definition ok (j : json) : http_response :=
  {| status_code := 200; text := ""; json_body := Some j |}.

(** An upstream that answers every request with the same page *)
Definition serving (p : json) : env :=
  {| http := fun _ _ _ => Ret (ok p);
     login_http := Ret (ok JNull);
     parse_time := utc_clock;
     omd_root := "/omd";
     args_username :=
       Raise (AttributeError "'Namespace' object has no attribute 'username'") |}.

Definition session_with (t : gmap string ts_entry) : session :=
  {| base_url := "https://unity/api"; timestamps_file := "state.json";
     timestamps := t; calls := [] |}.

(** Eight samples, newest first, at the seconds 108 down to 101 *)
Definition eight_samples : json :=
  page (map (fun t => sample t (10 * t)) [108; 107; 106; 105; 104; 103; 102; 101])
       [].

Definition cpu : string := "sp.*.cpu.summary.utilization".

Definition cpu_parameters : list (string * string) :=
  [("sp", "Processor"); ("value", "Utilization")].


(** Sessions of the test plugin after [load_inputs], and after
    [load_config] as well *)
Definition inputs_session : ProtocolService.ProtocolSession json json :=
  {| ProtocolService.inputs := {[ "u-1" := JStr "in" ]};
     ProtocolService.configs := ∅ |}.

Definition ready_session : ProtocolService.ProtocolSession json json :=
  {| ProtocolService.inputs := {[ "u-1" := JStr "in" ]};
     ProtocolService.configs := {[ "u-2" := JStr "cfg" ]} |}.

(** An array with two disks, whose metric listing answers with status
    500; [login_reply] is its answer to the login. *)

Import UnityProtocol.

Definition disks_page : json :=
  JDict [("entries", JList [JDict [("content", JDict [("name", JStr "d0")])];
                            JDict [("content", JDict [("name", JStr "d1")])]])].

Definition unity_inputs : json :=
  JDict [("DataTables",
          JDict [("API_Disks",
                  JDict [("CommandName", JStr "get_resource");
                         ("CommandLine", JStr "disk")]);
                 ("API_Cpu",
                  JDict [("CommandName", JStr "get_historic_metric_value");
                         ("CommandLine", JStr cpu)])]);
         ("DataFields",
          JDict [("API_name", JDict [("ParameterName", JStr "name")]);
                 ("API_Processor", JDict [("ParameterName", JStr "sp")]);
                 ("API_Utilization", JDict [("ParameterName", JStr "value")])])].

Definition disks_query : json := JDict [("Disks", JList [JStr "name"])].

Definition both_query : json :=
  JDict [("Disks", JList [JStr "name"]);
         ("Cpu", JList [JStr "Processor"; JStr "Utilization"])].

Definition unity_config : UnityConfig :=
  {| hostname := JStr "unity"; username := JStr "monitor";
     password := JStr "secret" |}.

Definition server_error : http_response :=
  {| status_code := 500; text := "Internal Server Error"; json_body := None |}.

Definition not_found : http_response :=
  {| status_code := 404; text := ""; json_body := None |}.

Definition array (login_reply : http_response) : env :=
  {| http := fun _ _ url =>
       if is_substring "types/disk/" url then Ret (ok disks_page)
       else if is_substring "types/metricValue/" url then Ret server_error
       else Ret (ok JNull);
     login_http := Ret login_reply;
     parse_time := utc_clock;
     omd_root := "/omd";
     args_username :=
       Raise (AttributeError "'Namespace' object has no attribute 'username'") |}.

Definition world0 : world := {| disk := ∅; requests := [] |}.

(** What C3 says of the outcome of [run_queries]: a result in which every
    table of the query is an [Err] with the given detail *)
Definition every_table_is_err (qry : list (string * json)) (detail : string)
    (o : outcome json) : Prop :=
  exists res,
    o = Ret (JDict res) /\
    forall table fields,
      In (table, fields) qry ->
      dict_get table res = Some (JDict [("Err", JStr detail)]).

(** *** Requests and operations of the service *)

(** [UnityProtocol()], as the service sees it; [fuel] bounds the pages
    that one metric is followed over. *)
Definition unity_plugin (E : env) (fuel : nat)
  : ProtocolService.ProtocolPlugin json UnityConfig world :=
  {| ProtocolService.class_name := "UnityProtocol";
     ProtocolService.p_protocol := Some UnityProtocol.protocol;
     ProtocolService.p_version := Some UnityProtocol.version;
     ProtocolService.p_load_inputs := Some UnityProtocol.load_inputs;
     ProtocolService.p_load_config := Some UnityProtocol.load_config;
     ProtocolService.p_show_queries := Some UnityProtocol.show_queries;
     ProtocolService.p_run_queries := Some (UnityProtocol.run_queries E fuel) |}.

Definition load_inputs_request (raw : json) : json :=
  JDict [("load_inputs", JDict [("input", raw)])].

Definition load_config_request (raw : json) : json :=
  JDict [("load_config", JDict [("config", raw)])].

Definition unload_inputs_request (ref : json) : json :=
  JDict [("unload_inputs", JDict [("input", ref)])].

Definition unload_config_request (ref : json) : json :=
  JDict [("unload_config", JDict [("config", ref)])].

Definition run_queries_request (qry input_ref config_ref : json) : json :=
  JDict [("run_queries",
          JDict [("query", qry); ("input", input_ref); ("config", config_ref)])].

(** The operations that [request] tests for and [ProtocolService] has no
    method for *)
Definition unimplemented : list string :=
  ["unload_inputs"; "unload_config"; "get_tables"; "get_fields"].

(** A string request that none of the tests of [request] accepts: it is
    neither [protocol] nor [version], and none of the names tested with
    [in] occurs in it. *)
Definition matches_no_operation (tag : string) : bool :=
  negb (String.eqb tag "protocol") && negb (String.eqb tag "version") &&
  negb (is_substring "load_inputs" tag) &&
  negb (is_substring "unload_inputs" tag) &&
  negb (is_substring "load_config" tag) &&
  negb (is_substring "unload_config" tag) &&
  negb (is_substring "show_queries" tag) &&
  negb (is_substring "run_queries" tag) &&
  negb (is_substring "get_tables" tag) &&
  negb (is_substring "get_fields" tag).

(** A session of the test plugin that holds one configuration *)
(** The configuration of the array of the examples, as a request gives
    it *)
Definition unity_raw_config : json :=
  JDict [("hostname", JStr "unity");
         ("config", JDict [("username", JStr "monitor");
                           ("password", JStr "secret")])].

(** [serves plugin refs s w s' w']: the session [s'] and the world [w'] are
    what a sequence of requests, of any kind and with any outcome, makes
    of [s] and [w]; [refs] are the identifiers that [uuid.uuid4()] yields
    for them, in turn. *)
Inductive serves {IH CH W : Type}
    (plugin : ProtocolService.ProtocolPlugin IH CH W)
  : list string -> ProtocolService.ProtocolSession IH CH -> W ->
    ProtocolService.ProtocolSession IH CH -> W -> Prop :=
| serves_none s w : serves plugin [] s w s w
| serves_request ref refs req o s w s1 w1 s2 w2 :
    ProtocolService.request plugin ref s req w = (o, s1, w1) ->
    serves plugin refs s1 w1 s2 w2 ->
    serves plugin (ref :: refs) s w s2 w2.

Definition loaded_session : ProtocolService.ProtocolSession json json :=
  {| ProtocolService.inputs := ∅;
     ProtocolService.configs := {[ "u-1" := JStr "cfg" ]} |}.

(** *** Notions for the further properties *)

(** The table entry that [run_queries] returns for a table whose command
    has returned *)
Definition ok_table (value : list json) : json :=
  JDict [("Ok", JDict [("warnings", JList []); ("value", JList value)])].


(** A listing whose only entry is at the second zero, and a session that
    holds a state entry for [cpu] *)
Definition epoch_sample : json := page [sample 0 7] [].

Definition steady_session : session :=
  session_with {[ cpu := {| timestamp := Some 100; result := [JNull] |} ]}.

(** What the array of the examples returns for the table [Disks], and a
    reply to the login that denies the authorization *)
Definition disks_result : outcome json :=
  fst (UnityProtocol.run_queries (array (ok JNull)) 1 disks_query unity_inputs
         unity_config world0).

Definition fst_ret (o : outcome json) : json :=
  match o with
  | Ret v => v
  | _ => JNull
  end.

Definition denied : http_response :=
  {| status_code := 200;
     text := "<p>You are not authorized to view this page.</p>";
     json_body := None |}.

(** The body with which the array reports an error *)
Definition error_body : json :=
  JDict [("error",
          JDict [("messages", JList [JDict [("en-US", JStr "No such type")]])])].

(** An instance of the class [ProtocolPlugin] itself, which defines no
    attribute *)
Definition bare_plugin : ProtocolService.ProtocolPlugin json json unit :=
  {| ProtocolService.class_name := "ProtocolPlugin";
     ProtocolService.p_protocol := None;
     ProtocolService.p_version := None;
     ProtocolService.p_load_inputs := None;
     ProtocolService.p_load_config := None;
     ProtocolService.p_show_queries := None;
     ProtocolService.p_run_queries := None |}.

(** The variables of the walk after three samples, and the result of a
    step that has returned *)
Definition counted_three : walk :=
  {| new_timestamp := Some 110; done := false; count := 3;
     timeseries := [(("spa", None), 30)]; cached := [] |}.

Definition fst_step (o : outcome (bool * walk)) : bool * walk :=
  match o with
  | Ret r => r
  | _ => (true, walk0)
  end.

(** *** The walk of a path, in the words of its description *)

(** The branches that a walk starts from: the elements of a list, and
    else the tree itself *)
Definition branches_of (dictionary : json) : list json :=
  match dictionary with
  | JList l => l
  | _ => [dictionary]
  end.

(** What a named step makes of a branch: the value under the key when the
    branch is a dictionary that holds it, and [None] otherwise *)
Definition key_or_none (step : string) (branch : json) : json :=
  match branch with
  | JDict d =>
      match dict_get step d with
      | Some v => v
      | None => JNull
      end
  | _ => JNull
  end.

(** A branch that is true and cannot be iterated: a number other than
    zero, or [True] *)
Definition true_scalar (branch : json) : bool :=
  match branch with
  | JNum n => negb (Z.eqb n 0)
  | JBool b => b
  | _ => false
  end.

(** What the step ['*'] makes of any other branch: nothing for a branch
    that is false, and otherwise one level of it: the elements of a list,
    the keys of a dictionary, the characters of a string *)
Definition star_children (branch : json) : list json :=
  if truthy branch then
    match branch with
    | JList l => l
    | JDict d => map (fun kv => JStr (fst kv)) d
    | JStr s => map JStr (chars s)
    | _ => []
    end
  else [].

(** The branches at the end of a path, or nothing when a ['*'] step meets
    a true scalar *)
Fixpoint branches_at (tree : list json) (path : list string) : option (list json) :=
  match path with
  | [] => Some tree
  | step :: path' =>
      if String.eqb step "*" then
        if existsb true_scalar tree then None
        else branches_at (concat (map star_children tree)) path'
      else branches_at (map (key_or_none step) tree) path'
  end.

(** What a path without ['*'] makes of one branch *)
Definition descend_along (path : list string) (branch : json) : json :=
  fold_left (fun x step => key_or_none step x) path branch.

(** ** [follow_path] *)

Section FollowPath.

(** A step other than ['*'] never raises: each branch gives one branch. *)
Lemma follow_step_named (tree : list json) (step : string) :
  step <> "*" -> follow_step tree step = Ret (map (descend step) tree).
Proof.
  intros H. unfold follow_step.
  destruct (String.eqb_spec step "*"); [contradiction | reflexivity].
Qed.

Lemma descend_key_or_none (step : string) (b : json) :
  descend step b = key_or_none step b.
Proof. destruct b; reflexivity. Qed.

Lemma expand_star_children (tree : list json) :
  existsb true_scalar tree = false ->
  expand tree = Ret (concat (map star_children tree)).
Proof.
  induction tree as [|b tree IH]; simpl; [reflexivity|].
  intros H. apply orb_false_elim in H as [Hb Ht]. rewrite (IH Ht).
  unfold star_children. destruct (truthy b) eqn:Htrue; [|reflexivity].
  destruct b as [|c|n|s|l|d]; simpl in *; try reflexivity; congruence.
Qed.

Lemma expand_true_scalar (tree : list json) :
  existsb true_scalar tree = true ->
  exists m, expand tree = Raise (TypeError m).
Proof.
  induction tree as [|b tree IH]; simpl; [discriminate|].
  destruct (true_scalar b) eqn:Hb; simpl.
  - intros _. destruct b as [|c|n|s|l|d]; simpl in Hb; try discriminate.
    + subst c. simpl. eauto.
    + simpl. rewrite Hb. simpl. eauto.
  - intros Ht. destruct (IH Ht) as [m Hm]. rewrite Hm.
    destruct (truthy b); [|simpl; eauto].
    destruct b as [|c|n|s|l|d]; simpl; eauto.
Qed.

Lemma follow_steps_walk (path : list string) :
  forall tree,
    match branches_at tree path with
    | Some l => follow_steps tree path = Ret l
    | None => exists m, follow_steps tree path = Raise (TypeError m)
    end.
Proof.
  induction path as [|step path IH]; intros tree; simpl; [reflexivity|].
  unfold follow_step. destruct (String.eqb step "*").
  - destruct (existsb true_scalar tree) eqn:Hs.
    + destruct (expand_true_scalar tree Hs) as [m ->]. simpl. eauto.
    + rewrite (expand_star_children tree Hs). simpl. apply IH.
  - cbn [bind].
    rewrite (List.map_ext (descend step) (key_or_none step)
               (descend_key_or_none step) tree).
    apply IH.
Qed.

Lemma follow_steps_descend_along (path : list string) :
  Forall (fun step => step <> "*") path ->
  forall tree, follow_steps tree path = Ret (map (descend_along path) tree).
Proof.
  induction 1 as [|step path Hstep _ IH]; intros tree; simpl.
  - unfold descend_along. simpl. f_equal. symmetry. apply List.map_id.
  - rewrite (follow_step_named tree step Hstep). cbn [bind].
    rewrite IH, map_map. reflexivity.
Qed.

End FollowPath.

(** C10, as stated, fails: a ['*'] step that meets the number 5 raises
    [TypeError] instead of returning a list. *)
Lemma follow_path_raises_on_number :
  follow_path (JDict [("a", JNum 5)]) ["a"; "*"] =
  Raise (TypeError "'int' object is not iterable").
Proof. reflexivity. Qed.

(** C10, amended: for every tree and every path, [follow_path] returns a
    list unless a ['*'] step meets a branch that is a number other than
    zero or [True], and then it raises [TypeError].  The list is the one
    that the steps describe: a step other than ['*'] makes of each branch
    the value under that key when the branch is a dictionary that holds
    it, and [None] otherwise; the step ['*'] adds nothing for a branch that
    is false, and otherwise the elements of a list, the keys of a
    dictionary and the characters of a string. *)
Theorem follow_path_walks_or_raises (dictionary : json) (path : list string) :
  match branches_at (branches_of dictionary) path with
  | Some l => follow_path dictionary path = Ret l
  | None => exists m, follow_path dictionary path = Raise (TypeError m)
  end.
Proof. unfold follow_path. apply follow_steps_walk. Qed.

(** ** [fill_in_row]: durations *)

Section Durations.

Lemma string_app_cons (x : ascii) (a b : string) :
  String x a +:+ b = String x (a +:+ b).
Proof. reflexivity. Qed.

Lemma string_app_assoc (a b c : string) : (a +:+ b) +:+ c = a +:+ (b +:+ c).
Proof.
  induction a as [|x a IH]; [reflexivity|].
  now rewrite !string_app_cons, IH.
Qed.

Lemma string_app_nonempty (a : string) (x : ascii) (b : string) :
  a +:+ String x b <> "".
Proof. destruct a; discriminate. Qed.

Lemma join_snoc (sep : string) (l : list string) (t : string) :
  l <> [] -> join sep (l ++ [t]) = join sep l +:+ (sep +:+ t).
Proof.
  induction l as [|x [|y l] IH]; intros Hl.
  - contradiction.
  - reflexivity.
  - change (join sep ((x :: y :: l) ++ [t]))
      with (x +:+ sep +:+ join sep ((y :: l) ++ [t])).
    rewrite IH by discriminate.
    change (join sep (x :: y :: l)) with (x +:+ sep +:+ join sep (y :: l)).
    now rewrite !string_app_assoc.
Qed.

Lemma join_empty (sep : string) (l : list string) :
  Forall (fun x => x <> "") l -> join sep l = "" -> l = [].
Proof.
  destruct l as [|x [|y l]]; intros Hl Hj; [reflexivity | |].
  - inversion Hl; subst. simpl in Hj. contradiction.
  - inversion Hl; subst. exfalso.
    change (x +:+ sep +:+ join sep (y :: l) = "") in Hj.
    destruct x; [contradiction | discriminate].
Qed.

Lemma add_component_join (l : list string) (t : string) :
  Forall (fun x => x <> "") l ->
  add_component (join ", " l) t = join ", " (l ++ [t]).
Proof.
  intros Hl. unfold add_component.
  destruct (String.eqb_spec (join ", " l) "") as [He|Hne].
  - rewrite (join_empty _ _ Hl He). reflexivity.
  - simpl negb. cbv iota. rewrite join_snoc; [reflexivity|].
    intros ->. apply Hne. reflexivity.
Qed.

Lemma append_parts_join (parts : list (Z * string)) :
  forall l,
    Forall (fun x => x <> "") l ->
    Forall (fun p => snd p <> "") parts ->
    append_parts parts (join ", " l) =
    join ", " (l ++ flat_map (fun p : Z * string =>
                                if Z.eqb (fst p) 0 then [] else [snd p]) parts).
Proof.
  induction parts as [|[n text] parts IH]; simpl; intros l Hl Hp.
  - now rewrite app_nil_r.
  - inversion Hp as [|? ? Ht Hp']; subst. simpl in Ht.
    destruct (Z.eqb n 0); simpl.
    + apply IH; assumption.
    + rewrite add_component_join by assumption.
      rewrite IH; [now rewrite <- app_assoc | | assumption].
      apply Forall_app; split; [assumption | constructor; [assumption | constructor]].
Qed.

(** The string built by the source is the parts that are not zero, joined
    by a comma and a blank. *)
Lemma duration_text_components (h minutes seconds : Z) :
  duration_text h minutes seconds = join ", " (components h minutes seconds).
Proof.
  unfold components.
  match goal with
  | |- _ = join _ (flat_map ?f ?parts) =>
      change (flat_map f parts) with ([] ++ flat_map f parts);
      rewrite <- (append_parts_join parts [])
  end; [reflexivity | constructor |].
  repeat constructor; simpl; apply string_app_nonempty.
Qed.

End Durations.




(** ** [get_historic_metric_value] *)

Section Aggregator.

Variable E : env.

Ltac outcome_cases H :=
  repeat (match type of H with
          | context [match ?x with _ => _ end] =>
              first [ is_var x; destruct x | destruct x eqn:? ]
          end; try discriminate H).

(** *** The cap on the number of samples *)

Lemma takes_cap (entry0 : option ts_entry) (ts : Z) (content : json) (cnt : Z) :
  old_timestamp entry0 = Some 0 ->
  takes entry0 ts content cnt = Ret true -> cnt <= 5.
Proof.
  unfold takes. intros -> H.
  destruct (newer ts (Some 0)); [|discriminate].
  destruct (contains "values" content) as [has| | |]; try discriminate.
  cbn [bind nonzero Z.eqb negb] in H. injection H as H.
  rewrite orb_false_r in H. apply andb_prop in H as [_ H]. lia.
Qed.

Lemma entry_step_cap (entry0 : option ts_entry) (entry : json) (w w' : walk)
    (b : bool) :
  old_timestamp entry0 = Some 0 ->
  count w <= 6 ->
  entry_step E entry0 entry w = Ret (b, w') ->
  count w' <= 6.
Proof.
  intros Hold Hw H. unfold entry_step, bind in H.
  destruct (getitem entry "content") as [content| | |]; try discriminate.
  destruct (getitem content "timestamp") as [stamp| | |]; try discriminate.
  destruct (parse_time E stamp) as [ts| | |]; try discriminate.
  destruct (_ && _).
  - destruct entry0; [|discriminate]. injection H as _ <-. exact Hw.
  - destruct (takes entry0 ts content (count w)) as [[|]| | |] eqn:Ht;
      try discriminate.
    + apply takes_cap in Ht; [|assumption].
      outcome_cases H; injection H as _ <-; simpl; lia.
    + injection H as _ <-. exact Hw.
Qed.

Lemma for_entries_cap (entry0 : option ts_entry) (entries : list json) :
  forall w w',
    old_timestamp entry0 = Some 0 ->
    count w <= 6 ->
    for_entries E entry0 entries w = Ret w' ->
    count w' <= 6.
Proof.
  induction entries as [|entry rest IH]; intros w w' Hold Hw H.
  - injection H as <-. exact Hw.
  - cbn [for_entries] in H. unfold bind in H.
    destruct (entry_step E entry0 entry w) as [[b w1]| | |] eqn:Hs;
      try discriminate.
    apply entry_step_cap in Hs; [|assumption..].
    destruct b; simpl in H.
    + injection H as <-. exact Hs.
    + eapply IH; eassumption.
Qed.

Lemma walk_pages_cap (entry0 : option ts_entry) (path : string) (fuel : nat) :
  forall api_response w s w' s',
    old_timestamp entry0 = Some 0 ->
    count w <= 6 ->
    walk_pages E fuel entry0 path api_response w s = (Ret w', s') ->
    count w' <= 6.
Proof.
  induction fuel as [|fuel IH]; intros api w s w' s' Hold Hw H.
  - discriminate.
  - cbn [walk_pages] in H. unfold bindM, lift, ret in H.
    destruct (do e <- getitem api "entries"; py_iter e) as [entries| | |];
      try discriminate.
    destruct (for_entries E entry0 entries w) as [w1| | |] eqn:Hf;
      try discriminate.
    apply for_entries_cap in Hf; [|assumption..].
    destruct (done w1).
    + injection H as <- _. exact Hf.
    + destruct (do l <- getitem api "links"; py_iter l) as [links| | |];
        try discriminate.
      destruct (for_links E path links false api s) as [[[new next]| | |] s1];
        try discriminate.
      destruct new; simpl in H.
      * eapply IH; eassumption.
      * injection H as <- _. exact Hf.
Qed.

(** *** The state after a call *)

Lemma query_api_timestamps (url method : string) (s : session) :
  timestamps (snd (query_api E url method s)) = timestamps s.
Proof.
  unfold query_api.
  destruct (http E (calls s) method _) as [r| | |]; try reflexivity.
  destruct (negb _); [reflexivity|].
  destruct (json_body r); reflexivity.
Qed.

Lemma for_links_timestamps (path : string) (links : list json) :
  forall new api s,
    timestamps (snd (for_links E path links new api s)) = timestamps s.
Proof.
  induction links as [|link links IH]; intros new api s; [reflexivity|].
  cbn [for_links]. unfold bindM, lift.
  destruct (getitem link "rel") as [rel| | |]; try reflexivity.
  destruct (eq_str rel "next"); [|apply IH].
  destruct (getitem link "href") as [href| | |]; try reflexivity.
  destruct (fmt_s href) as [suffix| | |]; try reflexivity.
  pose proof (query_api_timestamps (metric_url path +:+ suffix) "get" s) as Hq.
  destruct (query_api E _ "get" s) as [[next| | |] s1]; simpl in Hq;
    try exact Hq.
  rewrite IH. exact Hq.
Qed.

Lemma walk_pages_timestamps (entry0 : option ts_entry) (path : string)
    (fuel : nat) :
  forall api w s,
    timestamps (snd (walk_pages E fuel entry0 path api w s)) = timestamps s.
Proof.
  induction fuel as [|fuel IH]; intros api w s; [reflexivity|].
  cbn [walk_pages]. unfold bindM, lift, ret.
  destruct (do e <- getitem api "entries"; py_iter e) as [entries| | |];
    try reflexivity.
  destruct (for_entries E entry0 entries w) as [w1| | |]; try reflexivity.
  destruct (done w1); [reflexivity|].
  destruct (do l <- getitem api "links"; py_iter l) as [links| | |];
    try reflexivity.
  pose proof (for_links_timestamps path links false api s) as Hl.
  destruct (for_links E path links false api s) as [[[new next]| | |] s1];
    simpl in Hl; try exact Hl.
  destruct new; simpl; [|exact Hl].
  rewrite IH. exact Hl.
Qed.

Lemma collect_timestamps (fuel : nat) (path : string) (s : session) :
  timestamps (snd (collect E fuel path s)) = timestamps s.
Proof.
  unfold collect, bindM.
  pose proof (query_api_timestamps (metric_url path) "get" s) as Hq.
  destruct (query_api E _ "get" s) as [[api| | |] s1]; simpl in Hq;
    try exact Hq.
  rewrite walk_pages_timestamps. exact Hq.
Qed.

(** A call either returns rows and stores them with the new time stamp, or
    leaves the state as it was. *)
Lemma call_stores_or_keeps (fuel : nat) (path : string) (name : json)
    (parameters : list (string * string)) (s s' : session) (o : outcome (list json)) :
  get_historic_metric_value E fuel path name parameters s = (o, s') ->
  (exists w rows,
      fst (collect E fuel path s) = Ret w /\ o = Ret rows /\
      timestamps s' =
      <[path := {| timestamp := new_timestamp w; result := rows |}]>
        (timestamps s)) \/
  (returns o = false /\ timestamps s' = timestamps s).
Proof.
  unfold get_historic_metric_value, bindM, lift. intros H.
  pose proof (collect_timestamps fuel path s) as Hc.
  destruct (collect E fuel path s) as [[w| | |] s1]; simpl in Hc;
    try (injection H as <- <-; right; split; [reflexivity | exact Hc]).
  destruct (emit name parameters w) as [rows| | |];
    try (injection H as <- <-; right; split; [reflexivity | exact Hc]).
  injection H as <- <-. left. exists w, rows. simpl. rewrite Hc. auto.
Qed.

(** *** The first entry listed *)

Lemma newest_listed_inv (s : session) (path : string) (t : Z) :
  newest_listed E s path = Ret t ->
  exists api s1 first rest content stamp,
    query_api E (metric_url path) "get" s = (Ret api, s1) /\
    (do e <- getitem api "entries"; py_iter e) = Ret (first :: rest) /\
    getitem first "content" = Ret content /\
    getitem content "timestamp" = Ret stamp /\
    parse_time E stamp = Ret t.
Proof.
  unfold newest_listed. intros H.
  destruct (query_api E (metric_url path) "get" s) as [[api| | |] s1];
    try discriminate.
  cbn [fst bind] in H.
  destruct (getitem api "entries") as [e| | |] eqn:He; try discriminate.
  cbn [bind] in H.
  destruct (py_iter e) as [[|first rest]| | |] eqn:Hi; try discriminate.
  cbn [bind index nth_error] in H.
  destruct (getitem first "content") as [content| | |] eqn:Hc; try discriminate.
  cbn [bind] in H.
  destruct (getitem content "timestamp") as [stamp| | |] eqn:Hs;
    try discriminate.
  cbn [bind] in H.
  exists api, s1, first, rest, content, stamp.
  repeat split; try assumption. rewrite He. exact Hi.
Qed.

(** When the first entry carries the stored time stamp, the loop ends at
    once with the stored rows. *)
Lemma entry_step_same_time (e : ts_entry) (t : Z) (first content stamp : json) :
  timestamp e = Some t ->
  getitem first "content" = Ret content ->
  getitem content "timestamp" = Ret stamp ->
  parse_time E stamp = Ret t ->
  entry_step E (Some e) first walk0 =
  Ret (true, {| new_timestamp := Some t; done := true; count := 0;
                timeseries := []; cached := result e |}).
Proof.
  intros Ht Hc Hs Hp. unfold entry_step. rewrite Hc. cbn [bind].
  rewrite Hs. cbn [bind]. rewrite Hp. cbn [bind]. simpl.
  rewrite Ht. simpl. rewrite Z.eqb_refl. reflexivity.
Qed.

Lemma collect_same_time (fuel : nat) (path : string) (s : session)
    (e : ts_entry) (t : Z) :
  timestamps s !! path = Some e ->
  timestamp e = Some t ->
  newest_listed E s path = Ret t ->
  fst (collect E (S fuel) path s) =
  Ret {| new_timestamp := Some t; done := true; count := 0;
         timeseries := []; cached := result e |}.
Proof.
  intros He Ht Hn.
  destruct (newest_listed_inv s path t Hn)
    as (api & s1 & first & rest & content & stamp & Hq & Hl & Hc & Hs & Hp).
  unfold collect, bindM. rewrite Hq, He.
  cbn [walk_pages]. unfold bindM, lift. rewrite Hl.
  cbn [for_entries].
  rewrite (entry_step_same_time e t first content stamp Ht Hc Hs Hp).
  reflexivity.
Qed.

Lemma emit_cached (name : json) (parameters : list (string * string))
    (t : option Z) (rows : list json) :
  emit name parameters
    {| new_timestamp := t; done := true; count := 0; timeseries := [];
       cached := rows |} = Ret rows.
Proof. destruct rows; reflexivity. Qed.

(** In the situation of [collect_same_time] the call returns the stored
    rows and stores what was stored. *)
Lemma call_same_time (fuel : nat) (path : string) (name : json)
    (parameters : list (string * string)) (s : session) (e : ts_entry) (t : Z) :
  timestamps s !! path = Some e ->
  timestamp e = Some t ->
  newest_listed E s path = Ret t ->
  exists s1,
    get_historic_metric_value E (S fuel) path name parameters s
    = (Ret (result e), s1) /\
    timestamps s1 = timestamps s.
Proof.
  intros He Ht Hn.
  pose proof (collect_same_time fuel path s e t He Ht Hn) as Hc.
  pose proof (collect_timestamps (S fuel) path s) as Hk.
  unfold get_historic_metric_value, bindM, lift.
  destruct (collect E (S fuel) path s) as [o s1]. simpl in Hc, Hk. subst o.
  rewrite emit_cached. eexists. split; [reflexivity|].
  simpl. rewrite Hk. apply insert_id. rewrite He.
  destruct e as [t' rows]. simpl in Ht. subst t'. reflexivity.
Qed.






End Aggregator.

(** C1, as stated, fails: with a state entry whose time stamp is 100, all
    eight newer samples of a page are added up before the rows are
    returned. *)
Lemma steady_state_takes_more_than_six :
  let s := session_with {[ cpu := {| timestamp := Some 100; result := [] |} ]} in
  stored_timestamp s cpu = Some (Some 100) /\
  fst (collect (serving eight_samples) 1 cpu s) =
  Ret {| new_timestamp := Some 108; done := true; count := 8;
         timeseries := [(("spa", None), 8360)]; cached := [] |}.
Proof. split; vm_compute; reflexivity. Qed.

(** C1, amended: the cap of six samples is that of a first poll.  When the
    path has no state entry, or one whose time stamp is zero, at most six
    samples are added up before the rows are returned.  With a stored
    time stamp other than zero the number of samples added up so far
    plays no part in the test that guards the next one, and more than six
    can be added up: all eight of a listing of eight newer samples. *)
Theorem first_poll_takes_at_most_six
    (E : env) (fuel : nat) (path : string) (s s' : session) (w : walk) :
  old_timestamp (timestamps s !! path) = Some 0 ->
  collect E fuel path s = (Ret w, s') ->
  count w <= 6 /\
  (forall entry0 ts content cnt cnt',
      nonzero (old_timestamp entry0) = true ->
      takes entry0 ts content cnt = takes entry0 ts content cnt') /\
  (exists s0 w0,
      stored_timestamp s0 cpu = Some (Some 100) /\
      fst (collect (serving eight_samples) 1 cpu s0) = Ret w0 /\
      count w0 = 8).
Proof.
  intros Hold H. split; [|split].
  - unfold collect, bindM in H.
    destruct (query_api E (metric_url path) "get" s) as [[api| | |] s1];
      try discriminate.
    eapply walk_pages_cap; [exact Hold | | exact H]. simpl. lia.
  - intros entry0 ts content cnt cnt' Hnz. unfold takes. rewrite Hnz.
    now rewrite !orb_true_r.
  - exists steady_session. eexists.
    split; [reflexivity|]. split; [vm_compute; reflexivity | reflexivity].
Qed.

Lemma first_poll_takes_at_most_six_witness :
  exists w,
    fst (collect (serving eight_samples) 1 cpu (session_with ∅)) = Ret w /\
    count w = 6 /\ count w <= 6.
Proof.
  eexists. split; [vm_compute; reflexivity|]. split; [reflexivity|].
  apply (first_poll_takes_at_most_six (serving eight_samples) 1 cpu
           (session_with ∅)
           (snd (collect (serving eight_samples) 1 cpu (session_with ∅))));
    vm_compute; reflexivity.
Defined.







(** C5: when the first entry that the upstream lists carries the stored
    time stamp, the call returns the stored rows and leaves the state of
    the path as it was; hence, after a call that has returned rows, a
    second call in that situation returns the same rows and again leaves
    the stored time stamp as it was. *)
Theorem nothing_new_returns_stored_rows
    (E : env) (fuel : nat) (path : string) (name : json)
    (parameters : list (string * string)) (s : session) (t : Z) :
  stored_timestamp s path = Some (Some t) ->
  newest_listed E s path = Ret t ->
  (exists e s1,
      timestamps s !! path = Some e /\
      get_historic_metric_value E (S fuel) path name parameters s
      = (Ret (result e), s1) /\
      timestamps s1 = timestamps s) /\
  (forall E0 fuel0 name0 parameters0 s0 rows,
      get_historic_metric_value E0 fuel0 path name0 parameters0 s0
      = (Ret rows, s) ->
      exists s1,
        get_historic_metric_value E (S fuel) path name parameters s
        = (Ret rows, s1) /\
        stored_timestamp s1 path = stored_timestamp s path).
Proof.
  intros Hs Hn. unfold stored_timestamp in Hs.
  destruct (timestamps s !! path) as [e|] eqn:He; [|discriminate].
  injection Hs as Ht.
  destruct (call_same_time E fuel path name parameters s e t He Ht Hn)
    as (s1 & Hcall & Hts).
  split.
  - exists e, s1. auto.
  - intros E0 fuel0 name0 parameters0 s0 rows H0.
    destruct (call_stores_or_keeps E0 _ _ _ _ _ _ _ H0)
      as [(w & rows' & _ & Hr & Hts0)|[Hr _]]; [|discriminate].
    injection Hr as <-.
    rewrite Hts0, lookup_insert_eq in He. injection He as <-.
    exists s1. split; [exact Hcall|].
    unfold stored_timestamp. now rewrite Hts.
Qed.

Lemma nothing_new_returns_stored_rows_witness :
  let rows := [JDict [("Processor", JStr "spa"); ("Utilization", JNum 1055)]] in
  let s := snd (get_historic_metric_value (serving eight_samples) 1 cpu JNull
                  cpu_parameters (session_with ∅)) in
  get_historic_metric_value (serving eight_samples) 1 cpu JNull cpu_parameters
    (session_with ∅) = (Ret rows, s) /\
  fst (get_historic_metric_value (serving eight_samples) 1 cpu JNull
         cpu_parameters s) = Ret rows /\
  stored_timestamp
    (snd (get_historic_metric_value (serving eight_samples) 1 cpu JNull
            cpu_parameters s)) cpu = Some (Some 108).
Proof.
  intros rows s.
  assert (H0 : get_historic_metric_value (serving eight_samples) 1 cpu JNull
                 cpu_parameters (session_with ∅) = (Ret rows, s)).
  { vm_compute. reflexivity. }
  split; [exact H0|].
  destruct (nothing_new_returns_stored_rows (serving eight_samples) 0 cpu JNull
              cpu_parameters s 108) as [_ Htwice].
  - vm_compute. reflexivity.
  - vm_compute. reflexivity.
  - destruct (Htwice _ _ _ _ _ _ H0) as (s1 & Hcall & Hts).
    change 1%nat with (S 0). rewrite Hcall. split; [reflexivity|].
    simpl snd. rewrite Hts. vm_compute. reflexivity.
Defined.

(** ** [UnityProtocol.run_queries] *)

Section RunQueries.

Variable E : env.

(** [try_run] hands on what its argument raises, and wraps what it
    returns in ["Ok"]: it never makes an ["Err"]. *)
Lemma try_run_raise (m : M json) (s s' : session) (e : exn) :
  m s = (Raise e, s') -> try_run m s = (Raise e, s').
Proof. intros H. unfold try_run, bindM. now rewrite H. Qed.

Lemma try_run_ret (m : M json) (s s' : session) (v : json) :
  try_run m s = (Ret v, s') -> exists x, v = JDict [("Ok", x)].
Proof.
  unfold try_run, bindM, ret. intros H.
  destruct (m s) as [[x| | |] s1]; try discriminate.
  injection H as <- _. eauto.
Qed.

Lemma checked_login_404 (s : session) (r : http_response) :
  login_http E = Ret r -> status_code r = 404 ->
  checked_login E s = (Raise (ProtocolError "HTTP Status 404 - Not Found"), s).
Proof.
  intros Hl Hr. unfold checked_login, login, lift. cbn [fst].
  rewrite Hl. cbn [bind]. rewrite Hr. reflexivity.
Qed.

(** A table whose command raises ends the loop over the tables. *)
Lemma run_tables_raise (fuel : nat) (inputs : json) (table : string)
    (fields : json) (rest res : list (string * json)) (s s' : session)
    (e : exn) :
  table_query E fuel inputs table fields s = (Raise e, s') ->
  run_tables E fuel inputs ((table, fields) :: rest) res s = (Raise e, s').
Proof.
  intros H. cbn [run_tables]. unfold bindM.
  now rewrite (try_run_raise _ _ _ _ H).
Qed.

End RunQueries.

(** C2: the source of [try_run] has its handler commented out, so that a
    command that raises ends the whole query.  With a table [Disks] that
    can be read and a table [Cpu] whose listing answers with status 500,
    [run_queries] raises and returns no table, [Disks] included, sends no
    logout and writes no state; asked for [Disks] alone it returns it. *)
Theorem failing_table_aborts_the_query :
  UnityProtocol.run_queries (array (ok JNull)) 1 both_query unity_inputs unity_config world0 =
  (Raise (Exception "API responded with 500: Internal Server Error"),
   {| disk := ∅;
      requests :=
        [ ("get", "https://unity/api/types/disk/instances?fields=name");
          ("get", "https://unity/api/" +:+ metric_url cpu) ] |}) /\
  fst (UnityProtocol.run_queries (array (ok JNull)) 1 disks_query unity_inputs unity_config
         world0) =
  Ret (JDict
         [("Disks",
           JDict [("Ok",
                   JDict [("warnings", JList []);
                          ("value",
                           JList [JDict [("name", JDict [("Ok", JStr "d0")])];
                                  JDict [("name", JDict [("Ok", JStr "d1")])]])])])]).
Proof. split; vm_compute; reflexivity. Qed.

(** C3, as stated, fails: after a login answered with status 404,
    [run_queries] does not return a table of errors; it raises. *)
Lemma login_404_returns_no_tables :
  ~ every_table_is_err
      [("Disks", JList [JStr "name"]);
       ("Cpu", JList [JStr "Processor"; JStr "Utilization"])]
      "HTTP Status 404 - Not Found"
      (fst (UnityProtocol.run_queries (array not_found) 1 both_query unity_inputs
              unity_config world0)).
Proof. intros (res & H & _). vm_compute in H. discriminate. Qed.

(** C3, amended: when the login is answered with status 404,
    [run_queries] raises [ProtocolError("HTTP Status 404 - Not Found")]
    for the query as a whole, and sends no request for any command, nor a
    logout, and writes no state. *)
Theorem login_404_raises_protocol_error
    (E : env) (fuel : nat) (qry inputs : json) (config : UnityConfig)
    (w : world) (r : http_response) (host : string) :
  fmt_s (hostname config) = Ret host ->
  login_http E = Ret r ->
  status_code r = 404 ->
  UnityProtocol.run_queries E fuel qry inputs config w =
  (Raise (ProtocolError "HTTP Status 404 - Not Found"), w).
Proof.
  intros Hh Hl Hr. unfold UnityProtocol.run_queries, new_session. rewrite Hh. cbn [bind].
  unfold run_session, bindM. rewrite (checked_login_404 E _ r Hl Hr).
  destruct w. reflexivity.
Qed.

Lemma login_404_raises_protocol_error_witness :
  UnityProtocol.run_queries (array not_found) 1 both_query unity_inputs unity_config world0 =
  (Raise (ProtocolError "HTTP Status 404 - Not Found"), world0).
Proof.
  apply (login_404_raises_protocol_error (array not_found) 1 both_query
           unity_inputs unity_config world0 not_found "unity"); reflexivity.
Defined.

(** ** Further properties of the session *)

Section Rows.

Lemma dict_get_set_eq {A} (k : string) (v : A) (d : list (string * A)) :
  dict_get k (dict_set k v d) = Some v.
Proof.
  induction d as [|[k' v'] d IH]; simpl.
  - now rewrite String.eqb_refl.
  - destruct (String.eqb k k') eqn:Hk; simpl; rewrite ?String.eqb_refl, ?Hk; auto.
Qed.

Lemma dict_get_set_ne {A} (k k' : string) (v : A) (d : list (string * A)) :
  k <> k' -> dict_get k' (dict_set k v d) = dict_get k' d.
Proof.
  intros Hne. induction d as [|[k0 v0] d IH]; simpl.
  - destruct (String.eqb_spec k' k); [congruence | reflexivity].
  - destruct (String.eqb_spec k k0) as [->|Hk0]; simpl.
    + destruct (String.eqb_spec k' k0); [congruence | reflexivity].
    + destruct (String.eqb k' k0); [reflexivity | exact IH].
Qed.

Lemma fill_in_row_from_keys (parameters : list (string * string)) (tree : json) :
  forall row row' f,
    fill_in_row_from row parameters tree = Ret row' ->
    (is_Some (dict_get f row') <->
     is_Some (dict_get f row) \/ In f (map snd parameters)).
Proof.
  induction parameters as [|[parameter datafield] rest IH]; intros row row' f H.
  - injection H as <-. simpl. tauto.
  - cbn [fill_in_row_from] in H. unfold bind in H.
    destruct (follow_path tree _) as [branch| | |]; try discriminate.
    destruct (cell_of_branch branch) as [cell| | |]; try discriminate.
    rewrite (IH _ _ f H). simpl.
    destruct (String.eqb_spec datafield f) as [->|Hne].
    + rewrite dict_get_set_eq. split; [auto | intros _; left; eauto].
    + rewrite dict_get_set_ne by assumption. tauto.
Qed.

End Rows.

(** X1: a row that [fill_in_row] returns has a cell for each data field
    of the parameters, and for nothing else. *)
Theorem fill_in_row_has_the_requested_fields
    (parameters : list (string * string)) (tree : json)
    (row : list (string * json)) (f : string) :
  fill_in_row parameters tree = Ret row ->
  (is_Some (dict_get f row) <-> In f (map snd parameters)).
Proof.
  intros H. unfold fill_in_row in H.
  rewrite (fill_in_row_from_keys _ _ _ _ f H). simpl.
  split; [intros [[x Hx]|]; [discriminate | assumption] | auto].
Qed.

Lemma fill_in_row_has_the_requested_fields_witness :
  is_Some
    (dict_get "Name"
       [("Name", JStr "d0"); ("Size", JNull)]) <->
  In "Name" (map snd [("name", "Name"); ("size", "Size")]).
Proof.
  apply (fill_in_row_has_the_requested_fields
           [("name", "Name"); ("size", "Size")]
           (JDict [("name", JStr "d0")])).
  reflexivity.
Defined.

Section Walks.

Lemma follow_steps_app (p q : list string) :
  forall tree,
    follow_steps tree (p ++ q) =
    (do t <- follow_steps tree p; follow_steps t q).
Proof.
  induction p as [|step p IH]; intros tree; simpl; [reflexivity|].
  destruct (follow_step tree step); simpl; auto.
Qed.

Lemma expand_raises_type_error (tree : list json) :
  (exists l, expand tree = Ret l) \/ (exists m, expand tree = Raise (TypeError m)).
Proof.
  induction tree as [|b tree IH]; simpl; [eauto|].
  assert (Hb : (exists l, (if truthy b then py_iter b else Ret []) = Ret l) \/
               (exists m, (if truthy b then py_iter b else Ret [])
                          = Raise (TypeError m))).
  { destruct (truthy b); [|eauto]. destruct b; simpl; eauto. }
  destruct Hb as [[l ->]|[m ->]]; simpl; [|eauto].
  destruct IH as [[l' ->]|[m ->]]; simpl; eauto.
Qed.

Lemma follow_steps_raises_type_error (path : list string) :
  forall tree,
    (exists l, follow_steps tree path = Ret l) \/
    (exists m, follow_steps tree path = Raise (TypeError m)).
Proof.
  induction path as [|step path IH]; intros tree; simpl; [eauto|].
  unfold follow_step. destruct (String.eqb step "*").
  - destruct (expand_raises_type_error tree) as [[l ->]|[m ->]]; simpl; eauto.
  - simpl. apply IH.
Qed.

End Walks.

(** X2: on a path without the step ['*'], [follow_path] returns one branch
    for each branch it started from, which is what the keys of the path,
    taken one after the other, make of that branch: a key that is
    missing, or a branch that is not a dictionary, gives [None] and no
    exception. *)
Theorem follow_path_named_steps (dictionary : json) (path : list string) :
  Forall (fun step => step <> "*") path ->
  follow_path dictionary path =
  Ret (map (descend_along path) (branches_of dictionary)).
Proof.
  intros Hp. unfold follow_path. apply (follow_steps_descend_along path Hp).
Qed.

Lemma follow_path_named_steps_witness :
  follow_path (JList [JDict [("a", JDict [("b", JNum 5)])]; JNum 3; JNull;
                      JDict [("a", JStr "x")]; JDict [("c", JNum 1)]])
    ["a"; "b"] = Ret [JNum 5; JNull; JNull; JNull; JNull].
Proof.
  apply (follow_path_named_steps
           (JList [JDict [("a", JDict [("b", JNum 5)])]; JNum 3; JNull;
                   JDict [("a", JStr "x")]; JDict [("c", JNum 1)]])
           ["a"; "b"]).
  repeat constructor; discriminate.
Defined.

(** X3: walking a path in two parts is walking it at once: the branches
    that the first part yields, given as a list, are what the second part
    starts from. *)
Theorem follow_path_in_two_parts (dictionary : json) (p q : list string) :
  follow_path dictionary (p ++ q) =
  (do t <- follow_path dictionary p; follow_path (JList t) q).
Proof. unfold follow_path. apply follow_steps_app. Qed.

(** X4: [follow_path] raises nothing but the [TypeError] of a ['*'] step
    on a value that cannot be iterated; in particular no [KeyError]. *)
Theorem follow_path_raises_only_type_error (dictionary : json)
    (path : list string) :
  (exists l, follow_path dictionary path = Ret l) \/
  (exists m, follow_path dictionary path = Raise (TypeError m)).
Proof. unfold follow_path. apply follow_steps_raises_type_error. Qed.

Section Cells.

Lemma split_plain (sep : ascii) (s : string) :
  all_chars (fun c => negb (Ascii.eqb c sep)) s = true -> split sep s = [s].
Proof.
  induction s as [|c s IH]; simpl; [reflexivity|].
  intros H. apply andb_prop in H as [Hc Hs].
  apply negb_true_iff in Hc. rewrite Hc, (IH Hs). reflexivity.
Qed.

Lemma components_nil (h minutes seconds : Z) :
  components h minutes seconds = [] <-> h = 0 /\ minutes = 0 /\ seconds = 0.
Proof.
  unfold components. cbn [flat_map fst snd].
  split.
  - intros H.
    destruct (Z.eqb_spec (h / 24 / 365) 0) as [Hy|]; [|discriminate].
    destruct (Z.eqb_spec ((h / 24) mod 365) 0) as [Hd|]; [|discriminate].
    destruct (Z.eqb_spec (h mod 24) 0) as [Hh|]; [|discriminate].
    destruct (Z.eqb_spec minutes 0) as [Hm|]; [|discriminate].
    destruct (Z.eqb_spec seconds 0) as [Hs|]; [|discriminate].
    repeat split; try assumption.
    pose proof (Z.div_mod (h / 24) 365 ltac:(lia)) as H1.
    pose proof (Z.div_mod h 24 ltac:(lia)) as H2. lia.
  - intros (-> & -> & ->). reflexivity.
Qed.

End Cells.

(** X5: a parameter that names a key which the tree, a dictionary, does
    not hold gets the cell [None]; [fill_in_row] does not raise. *)
Theorem fill_in_row_missing_key (parameter datafield : string)
    (d : list (string * json)) :
  all_chars (fun c => negb (Ascii.eqb c ".")) parameter = true ->
  parameter <> "*" ->
  dict_get parameter d = None ->
  fill_in_row [(parameter, datafield)] (JDict d) = Ret [(datafield, JNull)].
Proof.
  intros Hplain Hstar Hget. unfold fill_in_row. cbn [fill_in_row_from].
  rewrite (split_plain _ _ Hplain). unfold follow_path. cbn [follow_steps].
  rewrite (follow_step_named _ _ Hstar). cbn [bind map descend follow_steps].
  rewrite Hget. reflexivity.
Qed.

Lemma fill_in_row_missing_key_witness :
  fill_in_row [("size", "Size")] (JDict [("name", JStr "d0")]) =
  Ret [("Size", JNull)].
Proof.
  apply (fill_in_row_missing_key "size" "Size" [("name", JStr "d0")]);
    [reflexivity | discriminate | reflexivity].
Defined.

(** X6: the text built for a duration is empty exactly when hours,
    minutes and seconds are all zero: a leaf such as ["0:00:00.000"] is
    rendered as the empty string. *)
Theorem duration_text_empty_iff_zero (h minutes seconds : Z) :
  duration_text h minutes seconds = "" <->
  h = 0 /\ minutes = 0 /\ seconds = 0.
Proof.
  rewrite duration_text_components, <- components_nil. split.
  - apply join_empty. unfold components. cbn [flat_map fst snd].
    repeat (apply Forall_app; split);
      try (destruct (Z.eqb _ 0); repeat constructor; apply string_app_nonempty).
    constructor.
  - intros ->. reflexivity.
Qed.

(** ** Further properties of [query_api] *)

(** X7: [query_api] returns a value exactly when the reply has status 200
    and a body that decodes, and the value is the decoded body; the request
    is logged once. *)
Theorem query_api_returns_iff_200 (E : env) (url method : string)
    (s s' : session) (j : json) :
  query_api E url method s = (Ret j, s') <->
  exists r,
    http E (calls s) method (base_url s +:+ "/" +:+ url) = Ret r /\
    status_code r = 200 /\ json_body r = Some j /\
    s' = log_call (method, base_url s +:+ "/" +:+ url) s.
Proof.
  unfold query_api. split.
  - intros H.
    destruct (http E (calls s) method _) as [r| | |]; try discriminate.
    destruct (Z.eqb_spec (status_code r) 200) as [H200|]; [|discriminate].
    cbn [negb] in H.
    destruct (json_body r) as [j'|] eqn:Hj; [|discriminate].
    injection H as <- <-. exists r. auto.
  - intros (r & -> & H200 & Hj & ->). rewrite H200, Hj. reflexivity.
Qed.

(** X8: when the reply does not have status 200, or has status 200 and a
    body that does not decode, [query_api] raises
    [Exception("API responded with <status>: <detail>")], where the detail
    is the fixed text for status 404 and the text of the reply
    otherwise. *)
Theorem query_api_failure_message (E : env) (url method : string)
    (s : session) (r : http_response) :
  http E (calls s) method (base_url s +:+ "/" +:+ url) = Ret r ->
  status_code r <> 200 \/ json_body r = None ->
  fst (query_api E url method s) =
  Raise (Exception
           ("API responded with " +:+ fmt_d (status_code r) +:+ ": " +:+
            (if Z.eqb (status_code r) 404
             then "HTTP Status 404 - Not Found" else text r))).
Proof.
  intros Hr Hbad. unfold query_api. rewrite Hr.
  assert (Herr : api_error r =
                 Exception
                   ("API responded with " +:+ fmt_d (status_code r) +:+ ": " +:+
                    (if Z.eqb (status_code r) 404
                     then "HTTP Status 404 - Not Found" else text r))).
  { unfold api_error, errors. cbn [find fst snd].
    rewrite (Z.eqb_sym 404). destruct (Z.eqb (status_code r) 404); reflexivity. }
  destruct (Z.eqb_spec (status_code r) 200) as [H200|Hne]; cbn [negb fst].
  - destruct Hbad as [Hbad|Hbad]; [contradiction|]. rewrite Hbad. cbn [fst].
    now rewrite Herr.
  - now rewrite Herr.
Qed.

Lemma query_api_failure_message_witness :
  fst (query_api (array (ok JNull))
         "types/metricValue/instances" "get" (session_with ∅)) =
  Raise (Exception "API responded with 500: Internal Server Error").
Proof.
  apply (query_api_failure_message (array (ok JNull))
           "types/metricValue/instances" "get" (session_with ∅) server_error).
  - reflexivity.
  - left. discriminate.
Defined.

(** ** Further properties of [get_historic_metric_value] *)

(** X9: a call that returns rows stores these rows, with a time stamp,
    as the entry of its path and changes no entry of another path. *)
Theorem call_stores_returned_rows (E : env) (fuel : nat) (path : string)
    (name : json) (parameters : list (string * string)) (s s' : session)
    (rows : list json) :
  get_historic_metric_value E fuel path name parameters s = (Ret rows, s') ->
  exists t,
    timestamps s' =
    <[path := {| timestamp := t; result := rows |}]> (timestamps s).
Proof.
  intros H.
  destruct (call_stores_or_keeps E _ _ _ _ _ _ _ H)
    as [(w & rows' & _ & Hr & Hts)|[Hr _]]; [|discriminate].
  injection Hr as <-. eauto.
Qed.

Lemma call_stores_returned_rows_witness :
  exists t,
    timestamps
      (snd (get_historic_metric_value (serving eight_samples) 1 cpu JNull
              cpu_parameters (session_with ∅))) =
    <[cpu := {| timestamp := t;
                result := [JDict [("Processor", JStr "spa");
                                  ("Utilization", JNum 1055)]] |}]>
      (timestamps (session_with ∅)).
Proof.
  apply (call_stores_returned_rows (serving eight_samples) 1 cpu JNull
           cpu_parameters (session_with ∅)).
  vm_compute. reflexivity.
Defined.

(** X10: a call that does not return rows, because a request fails or an
    entry is malformed, leaves every entry of the state as it was. *)
Theorem failed_call_keeps_the_state (E : env) (fuel : nat) (path : string)
    (name : json) (parameters : list (string * string)) (s s' : session)
    (o : outcome (list json)) :
  get_historic_metric_value E fuel path name parameters s = (o, s') ->
  returns o = false ->
  timestamps s' = timestamps s.
Proof.
  intros H Ho.
  destruct (call_stores_or_keeps E _ _ _ _ _ _ _ H)
    as [(w & rows & _ & -> & _)|[_ Hts]]; [discriminate | exact Hts].
Qed.

Lemma failed_call_keeps_the_state_witness :
  timestamps
    (snd (get_historic_metric_value (array (ok JNull)) 1 cpu JNull
            cpu_parameters steady_session))
  = timestamps steady_session.
Proof.
  apply (failed_call_keeps_the_state (array (ok JNull)) 1 cpu JNull
           cpu_parameters steady_session _
           (fst (get_historic_metric_value (array (ok JNull)) 1 cpu JNull
                   cpu_parameters steady_session))).
  - apply surjective_pairing.
  - vm_compute. reflexivity.
Defined.

(** X11: on the first call for a path, a first entry whose time is zero
    equals the default of the stored time stamp, and the rows of the
    missing state entry are looked up: the call raises
    [KeyError('result')]. *)
Theorem first_call_at_time_zero_raises (E : env) (fuel : nat) (path : string)
    (name : json) (parameters : list (string * string)) (s : session) :
  timestamps s !! path = None ->
  newest_listed E s path = Ret 0 ->
  fst (get_historic_metric_value E (S fuel) path name parameters s) =
  Raise (KeyError "result").
Proof.
  intros Hnone Hn.
  destruct (newest_listed_inv E s path 0 Hn)
    as (api & s1 & first & rest & content & stamp & Hq & Hl & Hc & Hs & Hp).
  unfold get_historic_metric_value, collect. unfold bindM. rewrite Hq, Hnone.
  cbn [walk_pages]. unfold bindM, lift. rewrite Hl.
  cbn [for_entries]. unfold entry_step. rewrite Hc. cbn [bind].
  rewrite Hs. cbn [bind]. rewrite Hp. reflexivity.
Qed.

Lemma first_call_at_time_zero_raises_witness :
  fst (get_historic_metric_value (serving epoch_sample) 1 cpu JNull
         cpu_parameters (session_with ∅)) = Raise (KeyError "result").
Proof.
  apply (first_call_at_time_zero_raises (serving epoch_sample) 0 cpu JNull
           cpu_parameters (session_with ∅)); vm_compute; reflexivity.
Defined.

(** X12: when the listing has no entries and no links, the call returns
    no rows and stores them with the time stamp [None], whatever was
    stored for the path. *)
Theorem empty_listing_stores_none (E : env) (fuel : nat) (path : string)
    (name : json) (parameters : list (string * string)) (s s1 : session)
    (api : json) :
  query_api E (metric_url path) "get" s = (Ret api, s1) ->
  getitem api "entries" = Ret (JList []) ->
  getitem api "links" = Ret (JList []) ->
  exists s',
    get_historic_metric_value E (S fuel) path name parameters s = (Ret [], s') /\
    timestamps s' !! path = Some {| timestamp := None; result := [] |}.
Proof.
  intros Hq He Hl.
  unfold get_historic_metric_value, collect. unfold bindM. rewrite Hq.
  cbn [walk_pages]. unfold bindM, lift, ret. rewrite He, Hl.
  cbn [bind py_iter for_entries walk0 done for_links].
  unfold ret. cbn [fst snd emit cached timeseries mapM].
  eexists. split; [reflexivity|]. cbn [timestamps set_timestamps].
  apply lookup_insert_eq.
Qed.

Lemma empty_listing_stores_none_witness :
  exists s',
    get_historic_metric_value (serving (page [] [])) 1 cpu JNull cpu_parameters
      steady_session = (Ret [], s') /\
    timestamps s' !! cpu = Some {| timestamp := None; result := [] |}.
Proof.
  apply (empty_listing_stores_none (serving (page [] [])) 0 cpu JNull
           cpu_parameters steady_session
           (snd (query_api (serving (page [] [])) (metric_url cpu) "get"
                   steady_session))
           (page [] [])); reflexivity.
Defined.

Section Rows_of_the_walk.

Variable E : env.








End Rows_of_the_walk.



(** X14: an entry that is not newer than the stored time stamp adds
    nothing to the running sums and is not counted. *)
Theorem old_entry_is_not_counted (E : env) (entry0 : option ts_entry)
    (entry content stamp : json) (t o : Z) (w w' : walk) (b : bool) :
  old_timestamp entry0 = Some o ->
  getitem entry "content" = Ret content ->
  getitem content "timestamp" = Ret stamp ->
  parse_time E stamp = Ret t ->
  t <= o ->
  entry_step E entry0 entry w = Ret (b, w') ->
  count w' = count w /\ timeseries w' = timeseries w.
Proof.
  intros Hold Hc Hs Hp Hle H. unfold entry_step in H.
  rewrite Hc in H. cbn [bind] in H. rewrite Hs in H. cbn [bind] in H.
  rewrite Hp in H. cbn [bind] in H.
  unfold takes in H. rewrite Hold in H. cbn [newer] in H.
  destruct (Z.ltb_spec o t) as [|_]; [lia|]. cbn [bind] in H.
  destruct (_ && _).
  - destruct entry0; [|discriminate]. injection H as _ <-. auto.
  - injection H as _ <-. auto.
Qed.

Lemma old_entry_is_not_counted_witness :
  count (snd (fst_step (entry_step (serving eight_samples)
                          (Some {| timestamp := Some 108; result := [] |})
                          (sample 105 50) counted_three))) = 3 /\
  timeseries (snd (fst_step (entry_step (serving eight_samples)
                               (Some {| timestamp := Some 108; result := [] |})
                               (sample 105 50) counted_three)))
  = [(("spa", None), 30)].
Proof.
  apply (old_entry_is_not_counted (serving eight_samples)
           (Some {| timestamp := Some 108; result := [] |})
           (sample 105 50)
           (JDict [("timestamp", JStr (iso 105));
                   ("values", JDict [("spa", JNum 50)])])
           (JStr (iso 105)) 105 108 counted_three _ false);
    try reflexivity. lia.
Defined.

(** ** Further properties of a polling cycle *)

Section Tables.

Variable E : env.

Lemma get_table_shape (fuel : nat) (command_name command_line : string)
    (parameters : list (string * string)) (s s' : session) (v : json) :
  get_table E fuel command_name command_line parameters s = (Ret v, s') ->
  exists value, v = JDict [("warnings", JList []); ("value", JList value)].
Proof.
  unfold get_table, bindM, lift, ret. intros H.
  destruct (command E fuel command_name command_line _ parameters s)
    as [[output| | |] s1]; try discriminate.
  destruct (do rows <- py_iter output; mapM wrap_row rows) as [value| | |];
    try discriminate.
  injection H as <- _. eauto.
Qed.

Lemma table_query_shape (fuel : nat) (inputs : json) (table : string)
    (fields : json) (s s' : session) (r : json) :
  try_run (table_query E fuel inputs table fields) s = (Ret r, s') ->
  exists value, r = ok_table value.
Proof.
  unfold try_run, table_query, bindM, lift, ret. intros H.
  destruct (do tables <- getitem inputs "DataTables";
            do t <- getitem tables ("API_" +:+ table);
            getitem t "CommandName") as [cn| | |]; try discriminate.
  destruct (do tables <- getitem inputs "DataTables";
            do t <- getitem tables ("API_" +:+ table);
            getitem t "CommandLine") as [cl| | |]; try discriminate.
  destruct (do l <- py_iter fields; parameters_of inputs l [])
    as [parameters| | |]; try discriminate.
  destruct cn; try discriminate. destruct cl; try discriminate.
  destruct (get_table E fuel s0 s1 parameters s) as [[v| | |] s2] eqn:Hg;
    try discriminate.
  injection H as <- _.
  destruct (get_table_shape _ _ _ _ _ _ _ Hg) as [value ->].
  exists value. reflexivity.
Qed.

Lemma run_tables_tables (fuel : nat) (inputs : json)
    (items : list (string * json)) :
  forall res s res' s' table,
    run_tables E fuel inputs items res s = (Ret res', s') ->
    (In table (map fst items) ->
     exists value, dict_get table res' = Some (ok_table value)) /\
    (~ In table (map fst items) -> dict_get table res' = dict_get table res).
Proof.
  induction items as [|[t fields] rest IH]; intros res s res' s' table H.
  - injection H as <- _. simpl. tauto.
  - cbn [run_tables] in H. unfold bindM at 1 in H.
    destruct (try_run (table_query E fuel inputs t fields) s)
      as [[r| | |] s1] eqn:Ht; try discriminate.
    destruct (table_query_shape _ _ _ _ _ _ _ Ht) as [value ->].
    destruct (IH _ _ _ _ table H) as [Hin Hout]. simpl. split.
    + intros Hor.
      destruct (in_dec String.string_dec table (map fst rest)) as [Hr|Hr];
        [auto|].
      destruct Hor as [<-|Hr']; [|contradiction].
      rewrite (Hout Hr), dict_get_set_eq. eauto.
    + intros Hno. rewrite Hout by tauto.
      apply dict_get_set_ne. intros ->. apply Hno. auto.
Qed.

End Tables.

(** X18: when a polling cycle returns, its result has an entry for each
    table of the query, of the form
    [{"Ok": {"warnings": [], "value": rows}}], and for no other table. *)
Theorem run_queries_returns_every_table (E : env) (fuel : nat)
    (qry inputs : json) (config : UnityConfig) (w w' : world) (out : json) :
  UnityProtocol.run_queries E fuel qry inputs config w = (Ret out, w') ->
  exists items res,
    qry = JDict items /\ out = JDict res /\
    forall table,
      (In table (map fst items) ->
       exists value, dict_get table res = Some (ok_table value)) /\
      (~ In table (map fst items) -> dict_get table res = None).
Proof.
  unfold UnityProtocol.run_queries. intros H.
  destruct (UnityProtocol.new_session E config w) as [s| | |]; try discriminate.
  destruct (run_session E fuel qry inputs s) as [[res0| | |] s'] eqn:Hrun;
    try discriminate.
  injection H as <- _.
  unfold run_session, bindM, lift, ret in Hrun.
  destruct (checked_login E s) as [[[]| | |] s1]; try discriminate.
  destruct (iteritems qry) as [items| | |] eqn:Hq; try discriminate.
  destruct (run_tables E fuel inputs items [] s1) as [[res| | |] s2] eqn:Ht;
    try discriminate.
  destruct (logout E s2) as [[[]| | |] s3]; try discriminate.
  injection Hrun as <- _.
  exists items, res. repeat split.
  - destruct qry; try discriminate. injection Hq as <-. reflexivity.
  - apply (run_tables_tables E _ _ _ _ _ _ _ table Ht).
  - intros Hno. now rewrite (proj2 (run_tables_tables E _ _ _ _ _ _ _ table Ht) Hno).
Qed.

Lemma run_queries_returns_every_table_witness :
  exists items res,
    disks_query = JDict items /\ fst_ret disks_result = JDict res /\
    forall table,
      (In table (map fst items) ->
       exists value, dict_get table res = Some (ok_table value)) /\
      (~ In table (map fst items) -> dict_get table res = None).
Proof.
  apply (run_queries_returns_every_table (array (ok JNull)) 1 disks_query
           unity_inputs unity_config world0
           (snd (UnityProtocol.run_queries (array (ok JNull)) 1 disks_query
                   unity_inputs unity_config world0))).
  vm_compute. reflexivity.
Defined.

(** X19: an exception that leaves the login block is a [ProtocolError],
    and the block sends no request and changes nothing in the session. *)
Theorem login_block_raises_protocol_error (E : env) (s s' : session) (e : exn) :
  checked_login E s = (Raise e, s') ->
  (exists m, e = ProtocolError m) /\ s' = s.
Proof.
  unfold checked_login. intros H.
  match type of H with
  | context [match ?a with _ => _ end] => destruct a
  end; try discriminate.
  injection H as <- <-. eauto.
Qed.

Lemma login_block_raises_protocol_error_witness :
  (exists m, ProtocolError "HTTP Status 404 - Not Found" = ProtocolError m) /\
  session_with ∅ = session_with ∅.
Proof.
  apply (login_block_raises_protocol_error (array not_found) (session_with ∅)).
  reflexivity.
Defined.

(** X20: a reply to the login that denies the authorization is reported
    with the message of the exception that the lookup of [args.username]
    raises, when it raises one, and not with the text about the user. *)
Theorem denied_login_reports_the_failed_lookup (E : env) (s : session)
    (r : http_response) (e : exn) :
  login_http E = Ret r ->
  status_code r <> 404 ->
  is_substring "You are not authorized to view this page." (text r) = true ->
  args_username E = Raise e ->
  checked_login E s = (Raise (ProtocolError (str_of_exn e)), s).
Proof.
  intros Hl Hs Hd Ha. unfold checked_login, login, lift. cbn [fst].
  rewrite Hl. cbn [bind].
  destruct (Z.eqb_spec (status_code r) 404) as [|_]; [contradiction|].
  rewrite Hd, Ha. reflexivity.
Qed.

Lemma denied_login_reports_the_failed_lookup_witness :
  checked_login (array denied) (session_with ∅) =
  (Raise (ProtocolError "'Namespace' object has no attribute 'username'"),
   session_with ∅).
Proof.
  apply (denied_login_reports_the_failed_lookup (array denied) (session_with ∅)
           denied
           (AttributeError "'Namespace' object has no attribute 'username'"));
    [reflexivity | discriminate | reflexivity | reflexivity].
Defined.

(** X21: when the array answers a resource listing with an error body,
    [get_resource] returns the joined messages as a string, and
    [get_table] then takes its characters for rows: a message that is not
    empty ends in [AttributeError], not in a table. *)
Theorem error_body_makes_get_table_raise (E : env) (fuel : nat)
    (command_line : string) (name : json) (parameters : list (string * string))
    (s s' : session) (c : ascii) (message : string) :
  get_resource E command_line name parameters s
  = (Ret (JStr (String c message)), s') ->
  get_table E fuel "get_resource" command_line parameters s =
  (Raise (AttributeError "'unicode' object has no attribute 'iteritems'"), s').
Proof.
  intros H. unfold get_table, command. cbn [String.eqb Ascii.eqb Bool.eqb].
  unfold get_resource in *. unfold bindM at 1. rewrite H. reflexivity.
Qed.

Lemma error_body_makes_get_table_raise_witness :
  fst (get_table (serving error_body) 1 "get_resource" "disk"
         [("name", "Name")] (session_with ∅)) =
  Raise (AttributeError "'unicode' object has no attribute 'iteritems'").
Proof.
  rewrite (error_body_makes_get_table_raise (serving error_body) 1 "disk" JNull
             [("name", "Name")] (session_with ∅)
             (snd (get_resource (serving error_body) "disk" JNull
                     [("name", "Name")] (session_with ∅)))
             "N" "o such type");
    reflexivity.
Defined.
(** ** [ProtocolService.request] *)

Import ProtocolService.

Section Requests.

Context {IH CH W : Type}.
Variable plugin : ProtocolPlugin IH CH W.

Lemma request_load_inputs (ref : string) (session : ProtocolSession IH CH)
    (raw : json) (w : W) :
  request plugin ref session (load_inputs_request raw) w =
  load_inputs plugin ref session raw w.
Proof. reflexivity. Qed.

Lemma request_load_config (ref : string) (session : ProtocolSession IH CH)
    (raw : json) (w : W) :
  request plugin ref session (load_config_request raw) w =
  load_config plugin ref session raw w.
Proof. reflexivity. Qed.

Lemma request_run_queries (ref : string) (session : ProtocolSession IH CH)
    (qry input_ref config_ref : json) (w : W) :
  request plugin ref session (run_queries_request qry input_ref config_ref) w =
  run_queries plugin session qry input_ref config_ref w.
Proof. reflexivity. Qed.

Lemma load_inputs_returns (ref : string) (s s' : ProtocolSession IH CH)
    (raw r : json) (w w' : W) :
  load_inputs plugin ref s raw w = (Ret r, s', w') ->
  exists f ih,
    p_load_inputs plugin = Some f /\ f raw = Ret ih /\ r = JStr ref /\
    inputs s' = <[ref := ih]> (inputs s) /\ configs s' = configs s /\ w' = w.
Proof.
  unfold load_inputs, fail. intros H.
  destruct (p_load_inputs plugin) as [f|]; [|discriminate].
  destruct (f raw) as [ih| | |] eqn:Hf; try discriminate.
  injection H as <- <- <-. exists f, ih. repeat split; auto.
Qed.

Lemma load_config_returns (ref : string) (s s' : ProtocolSession IH CH)
    (raw r : json) (w w' : W) :
  load_config plugin ref s raw w = (Ret r, s', w') ->
  exists f ch,
    p_load_config plugin = Some f /\ f raw = Ret ch /\ r = JStr ref /\
    configs s' = <[ref := ch]> (configs s) /\ inputs s' = inputs s /\ w' = w.
Proof.
  unfold load_config, fail. intros H.
  destruct (p_load_config plugin) as [f|]; [|discriminate].
  destruct (f raw) as [ch| | |] eqn:Hf; try discriminate.
  injection H as <- <- <-. exists f, ch. repeat split; auto.
Qed.

Lemma run_queries_resolved (s : ProtocolSession IH CH) (qry : json)
    (iref cref : string) (ih : IH) (ch : CH) (w : W)
    (f : json -> IH -> CH -> W -> outcome json * W) :
  p_run_queries plugin = Some f ->
  inputs s !! iref = Some ih ->
  configs s !! cref = Some ch ->
  run_queries plugin s qry (JStr iref) (JStr cref) w =
  (fst (f qry ih ch w), s, snd (f qry ih ch w)).
Proof.
  intros Hf Hi Hc. unfold run_queries, lookup_ref. rewrite Hf, Hi. cbn [bind].
  rewrite Hc. cbn [bind]. destruct (f qry ih ch w). reflexivity.
Qed.

Lemma run_queries_unknown_config (s : ProtocolSession IH CH) (qry : json)
    (iref cref : string) (ih : IH) (w : W)
    (f : json -> IH -> CH -> W -> outcome json * W) :
  p_run_queries plugin = Some f ->
  inputs s !! iref = Some ih ->
  configs s !! cref = None ->
  run_queries plugin s qry (JStr iref) (JStr cref) w =
  (Raise (KeyError cref), s, w).
Proof.
  intros Hf Hi Hc. unfold run_queries, lookup_ref. rewrite Hf, Hi. cbn [bind].
  rewrite Hc. reflexivity.
Qed.

Ltac reply_cases H :=
  repeat match type of H with
         | context [match ?x with _ => _ end] =>
             first [ is_var x; destruct x | destruct x eqn:? ]
         end.

(** A request changes the configurations of a session only by adding the
    reference that it returns: a reference that no request has returned
    is not held. *)
Lemma request_configs (ref : string) (s s' : ProtocolSession IH CH)
    (req : json) (o : outcome json) (w w' : W) :
  request plugin ref s req w = (o, s', w') ->
  configs s' = configs s \/
  exists ch, o = Ret (JStr ref) /\ configs s' = <[ref := ch]> (configs s).
Proof.
  unfold request, protocol, version, fail.
  destruct (eq_str req "protocol").
  { destruct (p_protocol plugin); intros H; injection H as <- <- <-; auto. }
  destruct (eq_str req "version").
  { destruct (p_version plugin); intros H; injection H as <- <- <-; auto. }
  unfold operations. cbn [dispatch]. unfold with_arguments, fail.
  unfold load_inputs, load_config, run_queries, fail.
  intros H. reply_cases H; injection H as <- <- <-; simpl; eauto.
Qed.

(** A configuration stays in the session over every request that draws
    another identifier. *)
Lemma request_keeps_config (ref r : string) (s s' : ProtocolSession IH CH)
    (req : json) (o : outcome json) (w w' : W) (ch : CH) :
  ref <> r ->
  configs s !! r = Some ch ->
  request plugin ref s req w = (o, s', w') ->
  configs s' !! r = Some ch.
Proof.
  intros Hne Hr H.
  destruct (request_configs _ _ _ _ _ _ _ H) as [->|(ch' & _ & ->)];
    [assumption|].
  now rewrite lookup_insert_ne.
Qed.

(** A request changes the inputs of a session only by adding the
    reference that it returns. *)
Lemma request_inputs (ref : string) (s s' : ProtocolSession IH CH)
    (req : json) (o : outcome json) (w w' : W) :
  request plugin ref s req w = (o, s', w') ->
  inputs s' = inputs s \/
  exists ih, o = Ret (JStr ref) /\ inputs s' = <[ref := ih]> (inputs s).
Proof.
  unfold request, protocol, version, fail.
  destruct (eq_str req "protocol").
  { destruct (p_protocol plugin); intros H; injection H as <- <- <-; auto. }
  destruct (eq_str req "version").
  { destruct (p_version plugin); intros H; injection H as <- <- <-; auto. }
  unfold operations. cbn [dispatch]. unfold with_arguments, fail.
  unfold load_inputs, load_config, run_queries, fail.
  intros H. reply_cases H; injection H as <- <- <-; simpl; eauto.
Qed.

(** What a session holds under a reference stays there over every
    sequence of requests that does not draw that identifier again. *)
Lemma serves_keeps_config (refs : list string) (s s' : ProtocolSession IH CH)
    (w w' : W) (r : string) (ch : CH) :
  serves plugin refs s w s' w' ->
  ~ In r refs ->
  configs s !! r = Some ch ->
  configs s' !! r = Some ch.
Proof.
  induction 1 as [|ref refs req o s w s1 w1 s2 w2 Hreq _ Hind]; intros Hr Hc;
    [assumption|].
  apply Hind; [intros Hin; apply Hr; now right|].
  destruct (request_configs _ _ _ _ _ _ _ Hreq) as [->|(ch' & _ & ->)];
    [assumption|].
  rewrite lookup_insert_ne; [assumption|]. intros ->. apply Hr. now left.
Qed.

Lemma serves_keeps_input (refs : list string) (s s' : ProtocolSession IH CH)
    (w w' : W) (r : string) (ih : IH) :
  serves plugin refs s w s' w' ->
  ~ In r refs ->
  inputs s !! r = Some ih ->
  inputs s' !! r = Some ih.
Proof.
  induction 1 as [|ref refs req o s w s1 w1 s2 w2 Hreq _ Hind]; intros Hr Hi;
    [assumption|].
  apply Hind; [intros Hin; apply Hr; now right|].
  destruct (request_inputs _ _ _ _ _ _ _ Hreq) as [->|(ih' & _ & ->)];
    [assumption|].
  rewrite lookup_insert_ne; [assumption|]. intros ->. apply Hr. now left.
Qed.

(** A session holds no configuration under an identifier that none of
    its requests has drawn. *)
Lemma serves_configs_drawn (refs : list string) (s s' : ProtocolSession IH CH)
    (w w' : W) (r : string) :
  serves plugin refs s w s' w' ->
  ~ In r refs ->
  configs s !! r = None ->
  configs s' !! r = None.
Proof.
  induction 1 as [|ref refs req o s w s1 w1 s2 w2 Hreq _ Hind]; intros Hr Hc;
    [assumption|].
  apply Hind; [intros Hin; apply Hr; now right|].
  destruct (request_configs _ _ _ _ _ _ _ Hreq) as [->|(ch' & _ & ->)];
    [assumption|].
  rewrite lookup_insert_ne; [assumption|]. intros ->. apply Hr. now left.
Qed.

End Requests.

(** C6, as stated, fails: [ProtocolService] has no method [unload_config],
    so the request raises for a reference that the session holds, and the
    session holds it afterwards. *)
Lemma unload_config_removes_nothing :
  let reply := request TestProtocol.plugin "u-2" loaded_session
                 (unload_config_request (JStr "u-1")) tt in
  configs loaded_session !! "u-1" = Some (JStr "cfg") /\
  fst (fst reply) = Raise (Exception "Request not implemented: unload_config") /\
  configs (snd (fst reply)) !! "u-1" = Some (JStr "cfg").
Proof. repeat split; vm_compute; reflexivity. Qed.

(** C6, amended: a request [unload_config] or [unload_inputs] fails with
    [Exception("Request not implemented: ...")] naming the operation,
    whether or not the session holds the reference, and leaves the
    mappings of the session as they were. *)
Theorem unload_is_not_implemented {IH CH W : Type}
    (plugin : ProtocolPlugin IH CH W) (ref : string)
    (session : ProtocolSession IH CH) (reference : json) (w : W) :
  request plugin ref session (unload_config_request reference) w =
  (Raise (Exception "Request not implemented: unload_config"), session, w) /\
  request plugin ref session (unload_inputs_request reference) w =
  (Raise (Exception "Request not implemented: unload_inputs"), session, w).
Proof. split; reflexivity. Qed.

(** C7, as stated, fails: a request with the unknown tag [ping] and
    arguments fails with a [TypeError] that does not name the tag; and the
    error for an unknown tag given as a string is of the class and
    wording of the error for an operation without a method. *)
Lemma unknown_tag_is_not_named :
  fst (fst (request TestProtocol.plugin "u" new_session
              (JDict [("ping", JDict [])]) tt)) =
  Raise (TypeError "cannot concatenate 'str' and 'dict' objects") /\
  is_substring "ping" "cannot concatenate 'str' and 'dict' objects" = false /\
  fst (fst (request TestProtocol.plugin "u" new_session (JStr "ping") tt)) =
  Raise (Exception "Request not implemented: ping") /\
  fst (fst (request TestProtocol.plugin "u" new_session
              (JDict [("get_tables", JDict [("input", JStr "r")])]) tt)) =
  Raise (Exception "Request not implemented: get_tables").
Proof. repeat split; vm_compute; reflexivity. Qed.

(** C7, amended: a request that is a string other than [protocol] and
    [version], in which none of the tested operation names occurs, fails
    with [Exception("Request not implemented: " + req)]; a request whose
    tag is an operation that [ProtocolService] has no method for
    ([unload_inputs], [unload_config], [get_tables], [get_fields]) fails
    with an error of the same class and wording, naming the operation. *)
Theorem unmatched_request_is_not_implemented {IH CH W : Type}
    (plugin : ProtocolPlugin IH CH W) (ref : string)
    (session : ProtocolSession IH CH) (w : W)
    (tag name : string) (arguments : json) :
  matches_no_operation tag = true ->
  In name unimplemented ->
  request plugin ref session (JStr tag) w =
  (Raise (Exception ("Request not implemented: " +:+ tag)), session, w) /\
  request plugin ref session (JDict [(name, arguments)]) w =
  (Raise (Exception ("Request not implemented: " +:+ name)), session, w).
Proof.
  intros Htag Hname. split.
  - unfold matches_no_operation in Htag.
    repeat (apply andb_prop in Htag as [Htag ?]).
    repeat match goal with
           | H : negb _ = true |- _ => apply negb_true_iff in H
           end.
    unfold request, eq_str.
    repeat match goal with
           | H : String.eqb _ _ = false |- _ => rewrite H; clear H
           end.
    unfold operations. cbn [dispatch contains].
    repeat match goal with
           | H : is_substring _ tag = false |- _ => rewrite H; clear H
           end.
    reflexivity.
  - unfold unimplemented in Hname. simpl in Hname.
    destruct Hname as [<-|[<-|[<-|[<-|[]]]]]; reflexivity.
Qed.

Lemma unmatched_request_is_not_implemented_witness :
  request TestProtocol.plugin "u" (@new_session json json) (JStr "ping") tt =
  (Raise (Exception "Request not implemented: ping"), new_session, tt) /\
  request TestProtocol.plugin "u" (@new_session json json)
    (JDict [("get_fields", JDict [("input", JStr "r")])]) tt =
  (Raise (Exception "Request not implemented: get_fields"), new_session, tt).
Proof.
  apply (unmatched_request_is_not_implemented TestProtocol.plugin "u"
           new_session tt "ping" "get_fields" (JDict [("input", JStr "r")])).
  - reflexivity.
  - simpl. auto.
Defined.

(** C8, as stated, fails: with references that [load_inputs] and
    [load_config] have returned, [run_queries] raises when the plugin's
    [run_queries] raises, as that of [UnityProtocol] does for an array
    that answers the login with status 404. *)
Lemma valid_references_can_fail :
  let unity := unity_plugin (array not_found) 1 in
  let loaded := request unity "u-1" new_session
                  (load_inputs_request (JList [unity_inputs])) world0 in
  let ready := request unity "u-2" (snd (fst loaded))
                 (load_config_request unity_raw_config) (snd loaded) in
  fst (fst loaded) = Ret (JStr "u-1") /\
  fst (fst ready) = Ret (JStr "u-2") /\
  fst (fst (request unity "u-3" (snd (fst ready))
              (run_queries_request disks_query (JStr "u-1") (JStr "u-2"))
              (snd ready))) =
  Raise (ProtocolError "HTTP Status 404 - Not Found").
Proof. repeat split; vm_compute; reflexivity. Qed.

(** C8, amended: in every session, whatever requests have been served
    since, [run_queries] with a reference that [load_inputs] has returned
    and one that [load_config] has returned, neither identifier having
    been drawn again, calls the plugin's [run_queries] with the values
    that the plugin's loaders made of the raw inputs and configuration,
    never with the references, and its outcome is that of the plugin: it
    returns what the plugin returns and raises what the plugin raises.
    With a reference that the configurations of the session do not hold
    it raises [KeyError] for that reference, and a session holds no
    configuration under an identifier that none of its requests has
    drawn. *)
Theorem run_queries_resolves_references {IH CH W : Type}
    (plugin : ProtocolPlugin IH CH W)
    (f : json -> IH -> CH -> W -> outcome json * W)
    (u1 u2 u3 : string) (refs1 refs2 : list string)
    (sa sa' sb sb' s : ProtocolSession IH CH)
    (raw_inputs raw_config r1 r2 qry : json) (wa wa' wb wb' w : W) :
  p_run_queries plugin = Some f ->
  request plugin u1 sa (load_inputs_request raw_inputs) wa = (Ret r1, sa', wa') ->
  serves plugin refs1 sa' wa' s w ->
  ~ In u1 refs1 ->
  request plugin u2 sb (load_config_request raw_config) wb = (Ret r2, sb', wb') ->
  serves plugin refs2 sb' wb' s w ->
  ~ In u2 refs2 ->
  (exists li lc ih ch,
      p_load_inputs plugin = Some li /\ li raw_inputs = Ret ih /\
      p_load_config plugin = Some lc /\ lc raw_config = Ret ch /\
      r1 = JStr u1 /\ r2 = JStr u2 /\
      request plugin u3 s (run_queries_request qry r1 r2) w =
      (fst (f qry ih ch w), s, snd (f qry ih ch w))) /\
  (forall unknown,
      configs s !! unknown = None ->
      request plugin u3 s (run_queries_request qry r1 (JStr unknown)) w =
      (Raise (KeyError unknown), s, w)) /\
  (forall refs0 w0 unknown,
      serves plugin refs0 new_session w0 s w ->
      ~ In unknown refs0 ->
      configs s !! unknown = None).
Proof.
  intros Hf H1 T1 N1 H2 T2 N2.
  rewrite request_load_inputs in H1. rewrite request_load_config in H2.
  apply load_inputs_returns in H1
    as (li & ih & Hli & Hih & -> & Hi1 & _ & _).
  apply load_config_returns in H2
    as (lc & ch & Hlc & Hch & -> & Hc2 & _ & _).
  assert (Hin : inputs s !! u1 = Some ih).
  { apply (serves_keeps_input plugin refs1 sa' s wa' w u1 ih T1 N1).
    rewrite Hi1. apply lookup_insert_eq. }
  assert (Hcf : configs s !! u2 = Some ch).
  { apply (serves_keeps_config plugin refs2 sb' s wb' w u2 ch T2 N2).
    rewrite Hc2. apply lookup_insert_eq. }
  split; [|split].
  - exists li, lc, ih, ch. repeat split; try assumption.
    rewrite request_run_queries.
    apply run_queries_resolved; assumption.
  - intros unknown Hu. rewrite request_run_queries.
    eapply run_queries_unknown_config; eassumption.
  - intros refs0 w0 unknown T0 N0.
    apply (serves_configs_drawn plugin refs0 new_session s w0 w unknown T0 N0).
    apply lookup_empty.
Qed.

Lemma run_queries_resolves_references_witness :
  request TestProtocol.plugin "u-3" ready_session
    (run_queries_request (JDict [("t", JList [JStr "f"])]) (JStr "u-1")
       (JStr "u-2")) tt =
  (Ret (JDict
          [("test_t",
            JDict [("Ok",
                    JDict [("value",
                            JList [JDict
                                     [("test_f",
                                       JDict [("Ok",
                                               JDict [("unicodestring",
                                                       JStr "test")])])]]);
                           ("warnings", JList [])])])]), ready_session, tt) /\
  request TestProtocol.plugin "u-3" ready_session
    (run_queries_request (JDict [("t", JList [JStr "f"])]) (JStr "u-1")
       (JStr "u-9")) tt =
  (Raise (KeyError "u-9"), ready_session, tt).
Proof.
  destruct (run_queries_resolves_references TestProtocol.plugin
              (fun qry i c w => (TestProtocol.run_queries qry i c, w))
              "u-1" "u-2" "u-3" ["u-4"; "u-2"] []
              new_session inputs_session inputs_session ready_session
              ready_session (JStr "in") (JStr "cfg")
              (JStr "u-1") (JStr "u-2") (JDict [("t", JList [JStr "f"])])
              tt tt tt tt tt) as (Hknown & Hunknown & _).
  - reflexivity.
  - vm_compute. reflexivity.
  - apply (serves_request TestProtocol.plugin "u-4" ["u-2"] (JStr "ping")
             (Raise (Exception "Request not implemented: ping"))
             inputs_session tt inputs_session tt ready_session tt);
      [vm_compute; reflexivity|].
    apply (serves_request TestProtocol.plugin "u-2" []
             (load_config_request (JStr "cfg")) (Ret (JStr "u-2"))
             inputs_session tt ready_session tt ready_session tt);
      [vm_compute; reflexivity | apply serves_none].
  - simpl. intros [H|[H|[]]]; discriminate.
  - vm_compute. reflexivity.
  - apply serves_none.
  - simpl. tauto.
  - split.
    + destruct Hknown
        as (li & lc & ih & ch & Hli & Hih & Hlc & Hch & _ & _ & ->).
      injection Hli as <-. injection Hlc as <-.
      injection Hih as <-. injection Hch as <-. reflexivity.
    + apply Hunknown. vm_compute. reflexivity.
Defined.

(** ** Further properties of the service *)

(** X22: a request changes the session only when it is a [load_inputs]
    or [load_config] that returns, and then by the one entry under the
    reference that it returns; every other request, and every request
    that raises, leaves both mappings as they were. *)
Theorem request_changes_the_session_by_one_entry {IH CH W : Type}
    (plugin : ProtocolPlugin IH CH W) (ref : string)
    (s s' : ProtocolSession IH CH) (req : json) (o : outcome json) (w w' : W) :
  request plugin ref s req w = (o, s', w') ->
  s' = s \/
  o = Ret (JStr ref) /\
  ((exists ih, inputs s' = <[ref := ih]> (inputs s) /\ configs s' = configs s) \/
   (exists ch, configs s' = <[ref := ch]> (configs s) /\ inputs s' = inputs s)).
Proof.
  unfold request, protocol, version, fail.
  destruct (eq_str req "protocol").
  { destruct (p_protocol plugin); intros H; injection H as <- <- <-; auto. }
  destruct (eq_str req "version").
  { destruct (p_version plugin); intros H; injection H as <- <- <-; auto. }
  unfold operations. cbn [dispatch]. unfold with_arguments, fail.
  unfold load_inputs, load_config, run_queries, fail.
  intros H.
  repeat match type of H with
         | context [match ?x with _ => _ end] =>
             first [ is_var x; destruct x | destruct x eqn:? ]
         end;
    injection H as <- <- <-; simpl; eauto 8.
Qed.

Lemma request_changes_the_session_by_one_entry_witness :
  ready_session = inputs_session \/
  Ret (JStr "u-2") = Ret (JStr "u-2") /\
  ((exists ih, inputs ready_session = <["u-2" := ih]> (inputs inputs_session) /\
               configs ready_session = configs inputs_session) \/
   (exists ch, configs ready_session = <["u-2" := ch]> (configs inputs_session) /\
               inputs ready_session = inputs inputs_session)).
Proof.
  apply (request_changes_the_session_by_one_entry TestProtocol.plugin "u-2"
           inputs_session ready_session (load_config_request (JStr "cfg"))
           (Ret (JStr "u-2")) tt tt).
  vm_compute. reflexivity.
Defined.

(** X23: a [show_queries] request with all its arguments fails for every
    plugin: [request] passes four arguments to a method of the service
    that takes two, and the plugin is not asked. *)
Theorem show_queries_request_always_fails {IH CH W : Type}
    (plugin : ProtocolPlugin IH CH W) (ref : string)
    (session : ProtocolSession IH CH) (qry input_ref config_ref : json) (w : W) :
  request plugin ref session
    (JDict [("show_queries",
             JDict [("query", qry); ("input", input_ref);
                    ("config", config_ref)])]) w =
  (Raise (TypeError "show_queries() takes exactly 3 arguments (5 given)"),
   session, w).
Proof. reflexivity. Qed.

(** X24: a [run_queries] request whose arguments hold a query and no
    input reference raises [KeyError('input')]; the plugin is not called
    and the session is as it was. *)
Theorem run_queries_request_without_input {IH CH W : Type}
    (plugin : ProtocolPlugin IH CH W) (ref : string)
    (session : ProtocolSession IH CH) (args : list (string * json)) (w : W) :
  is_Some (dict_get "query" args) ->
  dict_get "input" args = None ->
  request plugin ref session (JDict [("run_queries", JDict args)]) w =
  (Raise (KeyError "input"), session, w).
Proof.
  intros [q Hq] Hi. unfold request. cbn [eq_str].
  unfold operations. cbn [dispatch contains dict_get String.eqb Ascii.eqb
                            Bool.eqb bool_decide decide_rel].
  vm_compute (bool_decide _). cbv iota.
  repeat (vm_compute (bool_decide _); cbv iota).
  unfold with_arguments, arguments. cbn [mapM getitem dict_get String.eqb
                                          Ascii.eqb Bool.eqb bind].
  rewrite Hq. cbn [bind]. rewrite Hi. reflexivity.
Qed.

Lemma run_queries_request_without_input_witness :
  request TestProtocol.plugin "u" ready_session
    (JDict [("run_queries", JDict [("query", JDict []); ("config", JStr "u-2")])])
    tt =
  (Raise (KeyError "input"), ready_session, tt).
Proof.
  apply (run_queries_request_without_input TestProtocol.plugin "u"
           ready_session [("query", JDict []); ("config", JStr "u-2")] tt).
  - eexists. reflexivity.
  - reflexivity.
Defined.



(** X26: [run_queries] looks the input reference up first: with a
    reference that the inputs of the session do not hold it raises
    [KeyError] for it, whatever the configuration reference is, and does
    not call the plugin. *)
Theorem run_queries_unknown_input_reference {IH CH W : Type}
    (plugin : ProtocolPlugin IH CH W)
    (f : json -> IH -> CH -> W -> outcome json * W) (ref : string)
    (session : ProtocolSession IH CH) (qry config_ref : json)
    (unknown : string) (w : W) :
  p_run_queries plugin = Some f ->
  inputs session !! unknown = None ->
  request plugin ref session
    (run_queries_request qry (JStr unknown) config_ref) w =
  (Raise (KeyError unknown), session, w).
Proof.
  intros Hf Hi. rewrite request_run_queries.
  unfold run_queries, lookup_ref. rewrite Hf, Hi. reflexivity.
Qed.

Lemma run_queries_unknown_input_reference_witness :
  request TestProtocol.plugin "u" ready_session
    (run_queries_request (JDict []) (JStr "u-9") (JList [])) tt =
  (Raise (KeyError "u-9"), ready_session, tt).
Proof.
  apply (run_queries_unknown_input_reference TestProtocol.plugin
           (fun qry i c w => (TestProtocol.run_queries qry i c, w)) "u"
           ready_session (JDict []) (JList []) "u-9" tt); reflexivity.
Defined.

(** X27: with a plugin that has no [run_queries], the request raises
    [AttributeError] naming the class of the plugin and the method, before
    any reference is looked up. *)
Theorem run_queries_without_plugin_method {IH CH W : Type}
    (plugin : ProtocolPlugin IH CH W) (ref : string)
    (session : ProtocolSession IH CH) (qry input_ref config_ref : json) (w : W) :
  p_run_queries plugin = None ->
  request plugin ref session (run_queries_request qry input_ref config_ref) w =
  (Raise (AttributeError ("'" +:+ class_name plugin
                          +:+ "' object has no attribute 'run_queries'")),
   session, w).
Proof.
  intros Hf. rewrite request_run_queries. unfold run_queries. now rewrite Hf.
Qed.

Lemma run_queries_without_plugin_method_witness :
  request bare_plugin "u" ready_session
    (run_queries_request (JDict []) (JStr "u-1") (JStr "u-2")) tt =
  (Raise (AttributeError "'ProtocolPlugin' object has no attribute 'run_queries'"),
   ready_session, tt).
Proof.
  apply (run_queries_without_plugin_method bare_plugin "u" ready_session
           (JDict []) (JStr "u-1") (JStr "u-2") tt).
  reflexivity.
Defined.

(** ** The test plugin *)

Section TestPlugin.

Lemma test_prefix_inj (a b : string) : "test_" +:+ a = "test_" +:+ b -> a = b.
Proof. intros H. injection H as H. exact H. Qed.

Lemma test_tables_other (items : list (string * json)) :
  forall res res' key,
    TestProtocol.test_tables items res = Ret res' ->
    (forall table, In table (map fst items) -> "test_" +:+ table <> key) ->
    dict_get key res' = dict_get key res.
Proof.
  induction items as [|[t fields] rest IH]; intros res res' key H Hkey.
  - injection H as <-. reflexivity.
  - cbn [TestProtocol.test_tables] in H. unfold bind in H.
    destruct (py_iter fields) as [l| | |]; try discriminate.
    destruct (TestProtocol.test_row l []) as [row| | |]; try discriminate.
    rewrite (IH _ _ key H) by (intros table Ht; apply Hkey; simpl; auto).
    apply dict_get_set_ne. apply Hkey. simpl. auto.
Qed.

Lemma test_tables_entries (items : list (string * json)) :
  forall res res' table,
    TestProtocol.test_tables items res = Ret res' ->
    In table (map fst items) ->
    exists row,
      dict_get ("test_" +:+ table) res' =
      Some (JDict [("Ok", JDict [("value", JList [JDict row]);
                                 ("warnings", JList [])])]).
Proof.
  induction items as [|[t fields] rest IH]; intros res res' table H Hin.
  - destruct Hin.
  - pose proof H as H0.
    cbn [TestProtocol.test_tables] in H. unfold bind in H.
    destruct (py_iter fields) as [l| | |]; try discriminate.
    destruct (TestProtocol.test_row l []) as [row| | |]; try discriminate.
    destruct (in_dec String.string_dec table (map fst rest)) as [Hr|Hr].
    + eapply IH; eassumption.
    + destruct Hin as [Ht|Ht]; [|contradiction]. simpl in Ht. subst t.
      exists row.
      rewrite (test_tables_other _ _ _ ("test_" +:+ table) H).
      * apply dict_get_set_eq.
      * intros t' Ht' Heq. apply test_prefix_inj in Heq. subst t'.
        contradiction.
Qed.

End TestPlugin.

(** X28: when [run_queries] of the test plugin returns, its result has,
    for each table of the query, an entry [test_<table>] that is an
    ["Ok"] with one row and no warnings; the loaded inputs and
    configuration play no part. *)
Theorem test_plugin_returns_every_table (items : list (string * json))
    (inputs config out : json) (table : string) :
  TestProtocol.run_queries (JDict items) inputs config = Ret out ->
  In table (map fst items) ->
  exists res row,
    out = JDict res /\
    dict_get ("test_" +:+ table) res =
    Some (JDict [("Ok", JDict [("value", JList [JDict row]);
                               ("warnings", JList [])])]).
Proof.
  unfold TestProtocol.run_queries. cbn [iteritems bind]. intros H Hin.
  destruct (TestProtocol.test_tables items []) as [res| | |] eqn:Ht;
    try discriminate.
  injection H as <-.
  destruct (test_tables_entries _ _ _ table Ht Hin) as [row Hrow].
  exists res, row. auto.
Qed.

Lemma test_plugin_returns_every_table_witness :
  exists res row,
    JDict [("test_t",
            JDict [("Ok",
                    JDict [("value",
                            JList [JDict
                                     [("test_f",
                                       JDict [("Ok",
                                               JDict [("unicodestring",
                                                       JStr "test")])])]]);
                           ("warnings", JList [])])])] = JDict res /\
    dict_get ("test_" +:+ "t") res =
    Some (JDict [("Ok", JDict [("value", JList [JDict row]);
                               ("warnings", JList [])])]).
Proof.
  apply (test_plugin_returns_every_table [("t", JList [JStr "f"])]
           JNull JNull); [reflexivity | simpl; auto].
Defined.
